(** * Input-sanitization boundary of the secure-coding snippets

    A shallow embedding of the request handlers of

    - [OS Command injection/views.py]     (shell-string variant of the lookup),
    - [OS Command injection/solution.py]  (argument-vector variant),
    - [SQLi/views.py]                     (photo search: raw SQL, ORM, XML, YAML),

    with the sinks they reach (process execution, storage queries) recorded
    as an explicit trace of effects.

    Conventions.  A Python [str] is a [string] whose characters are read as
    the code points 0..255.  [None] is the [None] of an [option].  A handler
    returns the effects it performed, in order, together with its response
    or with the exception that escapes it.  The web framework around the
    handlers (routing, CSRF exemption, rate limiting, template rendering) is
    not modelled: a handler is modelled from the point where its body starts
    to run. *)

From Stdlib Require Import String Ascii List ZArith Bool Arith Lia.
From Stdlib Require Import DecimalString Sorted Permutation.
Import ListNotations.

Set Warnings "-register-all".

Local Open Scope list_scope.
Local Open Scope string_scope.

(* ================================================================== *)
(** ** Python string primitives used by the handlers *)

Module Py.

(** The double-quote character, code point 34. *)
Definition dquote : ascii := ascii_of_nat 34.

Definition str_of_char (c : ascii) : string := String c EmptyString.

(** [str.isspace] on one code point below 256: the ASCII white space
    9..13 and 32, the separators 28..31, NEL (133) and NBSP (160). *)
Definition is_space_char (c : ascii) : bool :=
  let n := nat_of_ascii c in
  ((9 <=? n) && (n <=? 13) || (28 <=? n) && (n <=? 32)
   || (n =? 133) || (n =? 160))%nat.

Fixpoint all_chars (p : ascii -> bool) (s : string) : bool :=
  match s with
  | EmptyString => true
  | String c s' => p c && all_chars p s'
  end.

Fixpoint any_char (p : ascii -> bool) (s : string) : bool :=
  match s with
  | EmptyString => false
  | String c s' => p c || any_char p s'
  end.

(** [s.isspace()]: at least one character, and all of them white space. *)
Definition isspace (s : string) : bool :=
  match s with
  | EmptyString => false
  | _ => all_chars is_space_char s
  end.

(** Truth value of a [str]. *)
Definition truthy (s : string) : bool :=
  match s with
  | EmptyString => false
  | _ => true
  end.

(** Truth value of an [int]. *)
Definition int_truthy (n : Z) : bool := negb (Z.eqb n 0).

(** The guard [query and not query.isspace()] on a value that is
    [None] or a [str]. *)
Definition searchable (query : option string) : bool :=
  match query with
  | None => false
  | Some q => truthy q && negb (isspace q)
  end.

(** [needle in hay]. *)
Fixpoint contains (needle hay : string) : bool :=
  prefix needle hay ||
  match hay with
  | EmptyString => false
  | String _ hay' => contains needle hay'
  end.

(** ASCII case folding, as [LIKE] does it. *)
Definition lower_char (c : ascii) : ascii :=
  let n := nat_of_ascii c in
  if ((65 <=? n) && (n <=? 90))%nat then ascii_of_nat (n + 32) else c.

Fixpoint lower (s : string) : string :=
  match s with
  | EmptyString => EmptyString
  | String c s' => String (lower_char c) (lower s')
  end.

(** The [__icontains] lookup of the ORM: case-insensitive containment. *)
Definition icontains (needle hay : string) : bool :=
  contains (lower needle) (lower hay).

(** [dict.get] / [QueryDict.get] on string keys: the value stored last
    under the key. *)
Fixpoint get (key : string) (d : list (string * string)) : option string :=
  match d with
  | [] => None
  | (k, v) :: d' =>
      match get key d' with
      | Some v' => Some v'
      | None => if String.eqb k key then Some v else None
      end
  end.

(** [bytes.isspace] on one byte: the ASCII white space only. *)
Definition is_space_byte (c : ascii) : bool :=
  let n := nat_of_ascii c in
  ((9 <=? n) && (n <=? 13) || (n =? 32))%nat.

(** [b.isspace()] for a [bytes] value. *)
Definition bytes_isspace (b : string) : bool :=
  match b with
  | EmptyString => false
  | _ => all_chars is_space_byte b
  end.

(** What [repr] prints as it is: for a [str] the printable code points
    below 256, for [bytes] the printable ASCII. *)
Definition printable_char (c : ascii) : bool :=
  let n := nat_of_ascii c in
  ((32 <=? n) && (n <=? 126) || (161 <=? n) && negb (n =? 173))%nat.

Definition printable_byte (c : ascii) : bool :=
  let n := nat_of_ascii c in
  ((32 <=? n) && (n <=? 126))%nat.

Definition hex_digit (n : nat) : ascii :=
  nth n (list_ascii_of_string "0123456789abcdef") "0"%char.

Definition escape_char (quote : ascii) (printable : ascii -> bool)
    (c : ascii) : string :=
  let n := nat_of_ascii c in
  if (n =? 92)%nat then "\\"
  else if Ascii.eqb c quote then String "\" (str_of_char quote)
  else if (n =? 9)%nat then "\t"
  else if (n =? 10)%nat then "\n"
  else if (n =? 13)%nat then "\r"
  else if printable c then str_of_char c
  else String "\" (String "x" (String (hex_digit (n / 16))
                                   (str_of_char (hex_digit (n mod 16))))).

Fixpoint escape (quote : ascii) (printable : ascii -> bool) (s : string)
  : string :=
  match s with
  | EmptyString => EmptyString
  | String c s' => escape_char quote printable c ++ escape quote printable s'
  end.

(** The quote [repr] picks: the double quote when the text holds a single
    quote and no double quote, the single quote otherwise. *)
Definition repr_quote (s : string) : ascii :=
  if any_char (Ascii.eqb "'") s && negb (any_char (Ascii.eqb dquote) s)
  then dquote else "'"%char.

(** [repr(s)] for a [str] and for a [bytes] value. *)
Definition repr_str (s : string) : string :=
  let q := repr_quote s in
  String q (escape q printable_char s ++ str_of_char q).

Definition repr_bytes (b : string) : string :=
  let q := repr_quote b in
  String "b" (String q (escape q printable_byte b ++ str_of_char q)).

End Py.

(* ================================================================== *)
(** ** Domain lookup: [OS Command injection/views.py] and [solution.py] *)

Module NameServer.

(** The part of the request the handler reads. *)
Record request : Type := Request {
  method : string;
  POST : list (string * string)
}.

(** [NameServerInfoForm(request.POST)] is bound to the posted data,
    [NameServerInfoForm()] is unbound. *)
Record NameServerInfoForm : Type := Form {
  is_bound : bool;
  data : list (string * string)
}.

(** The sinks of the two handlers. *)
Inductive effect : Type :=
| popen3_call (cmd : string)          (* os.popen3(cmd, 'r'): a shell runs cmd *)
| Popen_call (args : list string).    (* subprocess.Popen(args): no shell *)

(** [render(request, template, {'form': form, 'output': output})]. *)
Record response : Type := render {
  template : string;
  form : NameServerInfoForm;
  output : option string
}.

Section Form.

(** The form class lives in [nameserver/forms.py]; the handlers only
    use its cleaning of the field [domain_url]: from the posted value
    ([None] when the field is missing) to the cleaned value, or [None]
    when the form is not valid. *)
Variable clean_domain_url : option string -> option string.

(** [form.cleaned_data['domain_url']] once [form.is_valid()] ran. *)
Definition cleaned_data (f : NameServerInfoForm) : option string :=
  if is_bound f then clean_domain_url (Py.get "domain_url" (data f))
  else None.

Definition is_valid (f : NameServerInfoForm) : bool :=
  match cleaned_data f with
  | Some _ => true
  | None => false
  end.

End Form.

(** *** [views.py]: the command line is built by concatenation *)
Module Views.
Section Handler.

Variable clean_domain_url : option string -> option string.

(** What the shell answers on the standard output of a command
    line: [popen3(cmd, 'r')[1].read()]. *)
Variable popen3_stdout : string -> string.

Definition index (req : request) : list effect * response :=
  if String.eqb (method req) "POST" then
    let form := Form true (POST req) in
    match cleaned_data clean_domain_url form with
    | Some domain_url =>
        let cmd := "nslookup " ++ domain_url in
        ([popen3_call cmd],
         render "nameserver/index.html" form (Some (popen3_stdout cmd)))
    | None => ([], render "nameserver/index.html" form None)
    end
  else
    ([], render "nameserver/index.html" (Form false []) None).

End Handler.
End Views.

(** *** [solution.py]: the process is started from an argument vector *)
Module Solution.
Section Handler.

Variable clean_domain_url : option string -> option string.

(** What the process started from an argument vector answers:
    [communicate()[0]] and [returncode]. *)
Variable Popen_communicate : list string -> string * Z.

Definition index (req : request) : list effect * response :=
  if String.eqb (method req) "POST" then
    let form := Form true (POST req) in
    match cleaned_data clean_domain_url form with
    | Some domain_url =>
        let args := ["nslookup"; domain_url] in
        let (stdout, returncode) := Popen_communicate args in
        let output :=
          if Py.int_truthy returncode then "Please enter valid domain."
          else stdout in
        ([Popen_call args],
         render "nameserver/index.html" form (Some output))
    | None => ([], render "nameserver/index.html" form None)
    end
  else
    ([], render "nameserver/index.html" (Form false []) None).

End Handler.
End Solution.

(** Modelled from the spec: the validation of [NameServerInfoForm]
    ([nameserver/forms.py] is not part of the sources).  The spec's
    [validateDomain] accepts exactly the strings matching
    [^[a-zA-Z0-9.-]{1,253}$] whose dot-separated labels have a valid
    length (1 to 63 characters), and hands the accepted string on
    unchanged. *)
Definition domain_char (c : ascii) : bool :=
  let n := nat_of_ascii c in
  ((48 <=? n) && (n <=? 57) || (65 <=? n) && (n <=? 90)
   || (97 <=? n) && (n <=? 122) || (n =? 46) || (n =? 45))%nat.

(** Lengths of the dot-separated labels; [cur] is the length of the
    label being read. *)
Fixpoint label_lengths (cur : nat) (s : string) : list nat :=
  match s with
  | EmptyString => [cur]
  | String c s' =>
      if (nat_of_ascii c =? 46)%nat then cur :: label_lengths 0 s'
      else label_lengths (S cur) s'
  end.

Definition valid_label_length (n : nat) : bool :=
  ((1 <=? n) && (n <=? 63))%nat.

Definition validateDomain (input : string) : option string :=
  if ((1 <=? String.length input) && (String.length input <=? 253))%nat
     && Py.all_chars domain_char input
     && forallb valid_label_length (label_lengths 0 input)
  then Some input
  else None.


(** Modelled from the spec: a missing field is rejected, a posted one
    goes through [validateDomain]. *)
Definition spec_clean_domain_url (raw : option string) : option string :=
  match raw with
  | Some input => validateDomain input
  | None => None
  end.

End NameServer.

(* ================================================================== *)
(** ** Exceptions and JSON values of the photo application *)

Module Exn.

(** The exceptions the search handlers can meet. *)
Inductive exn : Type :=
| ParseError (msg : string)
| DTDForbidden (name : string) (sysid pubid : option string)
| EntitiesForbidden (name : string) (value sysid pubid : option string)
| ExternalReferenceForbidden (context : string) (sysid pubid : option string)
| AttributeError (msg : string)
| YAMLError (msg : string)            (* scanner, parser and composer errors *)
| ConstructorError (msg : string).

(** The classes named in the [except] clauses of the handlers.  The
    exceptions of defusedxml derive from [ValueError]; [ParseError]
    derives from [SyntaxError]; those of PyYAML from [YAMLError]. *)
Definition is_ParseError (e : exn) : bool :=
  match e with ParseError _ => true | _ => false end.

Definition is_ValueError (e : exn) : bool :=
  match e with
  | DTDForbidden _ _ _ | EntitiesForbidden _ _ _ _
  | ExternalReferenceForbidden _ _ _ => true
  | _ => false
  end.

Definition is_AttributeError (e : exn) : bool :=
  match e with AttributeError _ => true | _ => false end.

Definition is_ConstructorError (e : exn) : bool :=
  match e with ConstructorError _ => true | _ => false end.

(** [repr] and [str] of a value that is [None] or a string. *)
Definition repr (v : option string) : string :=
  match v with
  | None => "None"
  | Some s => Py.repr_str s
  end.

Definition str_opt (v : option string) : string :=
  match v with
  | None => "None"
  | Some s => s
  end.

(** [str(e)]. *)
Definition str (e : exn) : string :=
  match e with
  | ParseError msg | AttributeError msg | YAMLError msg
  | ConstructorError msg => msg
  | DTDForbidden name sysid pubid =>
      "DTDForbidden(name='" ++ name ++ "', system_id=" ++ repr sysid
      ++ ", public_id=" ++ repr pubid ++ ")"
  | EntitiesForbidden name _ sysid pubid =>
      "EntitiesForbidden(name='" ++ name ++ "', system_id=" ++ repr sysid
      ++ ", public_id=" ++ repr pubid ++ ")"
  | ExternalReferenceForbidden _ sysid pubid =>
      "ExternalReferenceForbidden(system_id='" ++ str_opt sysid
      ++ "', public_id=" ++ str_opt pubid ++ ")"
  end.

(** A computation that returns or raises. *)
Definition result (A : Type) : Type := (exn + A)%type.

Definition ret {A : Type} (a : A) : result A := inr a.
Definition raise {A : Type} (e : exn) : result A := inl e.

Definition bind {A B : Type} (m : result A) (k : A -> result B) : result B :=
  match m with
  | inl e => inl e
  | inr a => k a
  end.

End Exn.

Notation "x <- m ;; k" := (Exn.bind m (fun x => k))
  (at level 61, m at next level, right associativity).

Module Json.

Inductive json : Type :=
| JNull
| JBool (b : bool)
| JInt (n : Z)
| JStr (s : string)
| JArr (items : list json)
| JObj (members : list (string * json)).

End Json.

(* ================================================================== *)
(** ** The XML parser of defusedxml, as the handler configures it

    The payload is modelled as the sequence of callbacks the underlying
    expat parser makes while it reads the body; the defused handlers and
    the tree builder run on that sequence in order.  The message of a
    [ParseError] is the error text of expat, without the line and the
    column that follow it; a sequence of callbacks that expat does not
    make (an end tag that closes nothing, a second root) is refused as
    the text it stands for would be. *)

Module DefusedXml.
Import Exn.

Inductive element : Type :=
| Element (tag : string) (text : option string) (children : list element).

Definition tag_of (e : element) : string :=
  match e with Element t _ _ => t end.

(** [e.text]. *)
Definition text (e : element) : option string :=
  match e with Element _ t _ => t end.

Definition children (e : element) : list element :=
  match e with Element _ _ c => c end.

(** [e.find(tag)] with a plain tag name: the first child with that tag. *)
Definition find (tag : string) (e : element) : option element :=
  List.find (fun c => String.eqb (tag_of c) tag) (children e).

Record DefusedXMLParser : Type := Parser {
  forbid_dtd : bool;
  forbid_entities : bool;
  forbid_external : bool
}.

Inductive event : Type :=
| StartDoctypeDecl (name : string) (sysid pubid : option string)
| EntityDecl (name : string) (value sysid pubid : option string)
| ExternalEntityRef (context : string) (sysid pubid : option string)
| EntityRef (name : string)        (* a reference to a general entity *)
| StartElement (tag : string)
| EndElement (tag : string)
| CharacterData (data : string)
| NotWellFormed (msg : string).    (* expat stops here with an error *)

(** An element whose end tag has not been read yet: its tag, its text
    so far and its closed children, last first. *)
Record frame : Type := Frame {
  f_tag : string;
  f_text : option string;
  f_children : list element
}.

Record state : Type := State {
  stack : list frame;
  root : option element;
  entities : list (string * string);   (* declared internal entities *)
  expansions : nat                     (* entity references expanded *)
}.

Definition initial : state := State [] None [] 0.

(** Character data belongs to the text of the open element until its
    first child starts; afterwards it is the tail of a child, which no
    handler reads. *)
Definition add_data (d : string) (st : state) : state :=
  match stack st with
  | Frame t txt [] :: rest =>
      let txt' := match txt with None => d | Some s => s ++ d end in
      State (Frame t (Some txt') [] :: rest) (root st) (entities st)
            (expansions st)
  | _ => st
  end.

Definition step (p : DefusedXMLParser) (st : state) (ev : event)
  : result state :=
  match ev with
  | StartDoctypeDecl name sysid pubid =>
      if forbid_dtd p then raise (DTDForbidden name sysid pubid)
      else ret st
  | EntityDecl name value sysid pubid =>
      if forbid_entities p
      then raise (EntitiesForbidden name value sysid pubid)
      else
        match value with
        | Some v => ret (State (stack st) (root st)
                               ((name, v) :: entities st) (expansions st))
        | None => ret st
        end
  | ExternalEntityRef context sysid pubid =>
      if forbid_external p
      then raise (ExternalReferenceForbidden context sysid pubid)
      else ret st
  | EntityRef name =>
      match Py.get name (rev (entities st)) with
      | Some v =>
          ret (add_data v (State (stack st) (root st) (entities st)
                                 (S (expansions st))))
      | None => raise (ParseError ("undefined entity &" ++ name ++ ";"))
      end
  | StartElement tag =>
      match stack st, root st with
      | [], Some _ => raise (ParseError "junk after document element")
      | _, _ => ret (State (Frame tag None [] :: stack st) (root st)
                           (entities st) (expansions st))
      end
  | EndElement tag =>
      match stack st with
      | [] => raise (ParseError "not well-formed (invalid token)")
      | Frame t txt kids :: rest =>
          if String.eqb t tag then
            let e := Element t txt (rev kids) in
            match rest with
            | [] => ret (State [] (Some e) (entities st) (expansions st))
            | Frame pt ptxt pkids :: rest' =>
                ret (State (Frame pt ptxt (e :: pkids) :: rest') (root st)
                           (entities st) (expansions st))
            end
          else raise (ParseError "mismatched tag")
      end
  | CharacterData d => ret (add_data d st)
  | NotWellFormed msg => raise (ParseError msg)
  end.

(** The callbacks of a [<!DOCTYPE>] and of an [<!ENTITY>] declaration. *)
Definition is_declaration (ev : event) : bool :=
  match ev with
  | StartDoctypeDecl _ _ _ | EntityDecl _ _ _ _ => true
  | _ => false
  end.

(** End of input. *)
Definition close (st : state) : result element :=
  match stack st, root st with
  | [], Some e => ret e
  | [], None => raise (ParseError "no element found")
  | _ :: _, _ => raise (ParseError "no element found")
  end.

(** [XMLParser.feed] followed by [close]: the number of entity
    references expanded, and the root element or the exception. *)
Fixpoint feed (p : DefusedXMLParser) (st : state) (evs : list event)
  : nat * result element :=
  match evs with
  | [] => (expansions st, close st)
  | ev :: evs' =>
      match step p st ev with
      | inl e => (expansions st, inl e)
      | inr st' => feed p st' evs'
      end
  end.

(** [etree.parse(source, parser=parser)]; [getroot()] is the result. *)
Definition parse (source : list event) (parser : DefusedXMLParser)
  : nat * result element :=
  feed parser initial source.

(** The configuration [XMLSearchPhotosAPIView.post] builds. *)
Definition strict : DefusedXMLParser := Parser true true true.

(** No entity is declared and none was expanded. *)
Definition pristine (st : state) : Prop :=
  entities st = [] /\ expansions st = 0.

End DefusedXml.

(* ================================================================== *)
(** ** [yaml.safe_load]

    The payload is modelled as what the composer of PyYAML hands to the
    constructor: nothing, an error, or one document whose nodes carry
    their resolved tag.  A scalar is given with the value its text
    denotes for its tag (null, bool, int, float, str, binary,
    timestamp); a sequence is a [!!seq], an [!!omap] or a [!!pairs], a
    mapping a [!!map] or a [!!set]; [YMerge] is the key [<<].
    [YTagged] is a node whose tag has no entry in the constructor table
    of [SafeConstructor], such as [!!python/object/apply:os.system].
    Left out are aliases, the key [=], nodes whose tag names another
    kind of node than they are, and scalars whose text the constructor
    of their tag refuses.  The constructor is followed in document
    order; PyYAML builds a nested collection after the one that holds
    it, so that of several faulty nodes it may report another one: the
    class of the exception is the same, [ConstructorError]. *)

Module Yaml.
Import Exn.

(** A float, as the double Python converts the text to: a finite value
    [mantissa * 2 ^ exponent] (zero when the mantissa is), an infinity,
    or not a number. *)
Inductive float : Type :=
| Finite (mantissa exponent : Z)
| Infinite (negative : bool)
| NaN.

(** The value of a timestamp: a [datetime.date] or a
    [datetime.datetime]. *)
Inductive timestamp : Type :=
| Date (year month day : Z)
| DateTime (year month day hour minute second : Z).

Inductive node : Type :=
| YNull
| YBool (b : bool)
| YInt (n : Z)
| YStr (s : string)
| YSeq (items : list node)
| YMap (pairs : list (node * node))
| YTagged (tag : string) (body : node)
| YFloat (x : float)
| YBinary (data : string)          (* the bytes the base64 text decodes to *)
| YTimestamp (t : timestamp)
| YMerge                           (* the merge key [<<] *)
| YSet (pairs : list (node * node))
| YOmap (items : list node)
| YPairs (items : list node).

Inductive stream : Type :=
| Malformed (problem : string)   (* the scanner or the parser fails *)
| Empty                          (* no document *)
| Several                        (* more than one document *)
| Document (root : node).

(** The Python values [safe_load] builds.  A [dict] is kept as its
    items in the order they are assigned, a [set] as its elements. *)
Inductive value : Type :=
| PyNone
| PyBool (b : bool)
| PyInt (n : Z)
| PyStr (s : string)
| PyList (items : list value)
| PyDict (items : list (value * value))
| PyFloat (x : float)
| PyBytes (b : string)
| PyDate (t : timestamp)
| PyTuple (items : list value)
| PySet (items : list value).

(** [isinstance(v, collections.abc.Hashable)]. *)
Definition hashable (v : value) : bool :=
  match v with
  | PyList _ | PyDict _ | PySet _ => false
  | _ => true
  end.

Definition items_of (v : value) : list (value * value) :=
  match v with
  | PyDict items => items
  | _ => []
  end.

(** Where the constructor meets a node: as a value, as what a merge key
    brings in (a mapping or a list of mappings), as one mapping of such a
    list, or as an item of an ordered map or a list of pairs.  In the
    last three places only the pairs of the node are read, not its
    tag. *)
Inductive position : Type :=
| Value
| MergeValue
| MergeItem
| OmapItem.

Definition undefined_tag (tag : string) : exn :=
  ConstructorError
    ("could not determine a constructor for the tag '" ++ tag ++ "'").

Section Collections.

(** The constructor of a node at a position, for the nodes below. *)
Variable construct_at : position -> node -> result value.

(** [construct_sequence], and the items of [!!omap] and [!!pairs]. *)
Fixpoint construct_each (pos : position) (l : list node)
  : result (list value) :=
  match l with
  | [] => ret []
  | x :: l' =>
      v <- construct_at pos x ;;
      vs <- construct_each pos l' ;;
      ret (v :: vs)
  end.

(** The mappings a merge key lists: one listed earlier overrides one
    listed later, so its pairs are assigned after. *)
Fixpoint construct_merge_list (l : list node)
  : result (list (value * value)) :=
  match l with
  | [] => ret []
  | x :: l' =>
      d <- construct_at MergeItem x ;;
      later <- construct_merge_list l' ;;
      ret (later ++ items_of d)%list
  end.

(** [flatten_mapping] and [construct_mapping]: the pairs merged in, and
    the pairs of the mapping itself, each in order; a key must be
    hashable. *)
Fixpoint construct_pairs (l : list (node * node))
  : result (list (value * value) * list (value * value)) :=
  match l with
  | [] => ret ([], [])
  | (YMerge, vn) :: l' =>
      d <- construct_at MergeValue vn ;;
      rest <- construct_pairs l' ;;
      ret ((items_of d ++ fst rest)%list, snd rest)
  | (kn, vn) :: l' =>
      k <- construct_at Value kn ;;
      if hashable k then
        v <- construct_at Value vn ;;
        rest <- construct_pairs l' ;;
        ret (fst rest, (k, v) :: snd rest)
      else raise (ConstructorError "found unhashable key")
  end.

(** The items of a mapping in the order they are assigned: the merged
    ones first, so that the mapping's own pairs override them. *)
Definition construct_mapping (l : list (node * node))
  : result (list (value * value)) :=
  both <- construct_pairs l ;; ret (fst both ++ snd both)%list.

End Collections.

(** [SafeConstructor.construct_object], with the places where a node is
    read for its pairs only. *)
Fixpoint construct_at (pos : position) (n : node) {struct n} : result value :=
  match pos with
  | Value =>
      match n with
      | YNull => ret PyNone
      | YBool b => ret (PyBool b)
      | YInt z => ret (PyInt z)
      | YStr s => ret (PyStr s)
      | YFloat x => ret (PyFloat x)
      | YBinary data => ret (PyBytes data)
      | YTimestamp t => ret (PyDate t)
      | YMerge => raise (undefined_tag "tag:yaml.org,2002:merge")
      | YSeq items =>
          vs <- construct_each construct_at Value items ;; ret (PyList vs)
      | YOmap items | YPairs items =>
          vs <- construct_each construct_at OmapItem items ;; ret (PyList vs)
      | YMap pairs =>
          kvs <- construct_mapping construct_at pairs ;; ret (PyDict kvs)
      | YSet pairs =>
          kvs <- construct_mapping construct_at pairs ;;
          ret (PySet (map fst kvs))
      | YTagged tag _ => raise (undefined_tag tag)
      end
  | MergeValue =>
      match n with
      | YMap pairs | YSet pairs =>
          kvs <- construct_mapping construct_at pairs ;; ret (PyDict kvs)
      | YSeq items | YOmap items | YPairs items =>
          kvs <- construct_merge_list construct_at items ;; ret (PyDict kvs)
      | YTagged _ body => construct_at MergeValue body
      | _ =>
          raise (ConstructorError
                   "expected a mapping or list of mappings for merging")
      end
  | MergeItem =>
      match n with
      | YMap pairs | YSet pairs =>
          kvs <- construct_mapping construct_at pairs ;; ret (PyDict kvs)
      | YTagged _ body => construct_at MergeItem body
      | _ => raise (ConstructorError "expected a mapping for merging")
      end
  | OmapItem =>
      match n with
      | YMap [(kn, vn)] | YSet [(kn, vn)] =>
          k <- construct_at Value kn ;;
          v <- construct_at Value vn ;;
          ret (PyTuple [k; v])
      | YMap _ | YSet _ =>
          raise (ConstructorError "expected a single mapping item")
      | YTagged _ body => construct_at OmapItem body
      | _ => raise (ConstructorError "expected a mapping of length 1")
      end
  end.

Definition construct (n : node) : result value := construct_at Value n.

(** Does the constructor, reading a node at a position, meet a tag
    outside its table? *)
Fixpoint reads_tag (pos : position) (n : node) {struct n} : bool :=
  let in_pairs :=
    existsb (fun kv : node * node =>
               match kv with
               | (YMerge, vn) => reads_tag MergeValue vn
               | (kn, vn) => reads_tag Value kn || reads_tag Value vn
               end) in
  match pos with
  | Value =>
      match n with
      | YSeq items => existsb (reads_tag Value) items
      | YOmap items | YPairs items => existsb (reads_tag OmapItem) items
      | YMap pairs | YSet pairs => in_pairs pairs
      | YTagged _ _ => true
      | _ => false
      end
  | MergeValue =>
      match n with
      | YMap pairs | YSet pairs => in_pairs pairs
      | YSeq items | YOmap items | YPairs items =>
          existsb (reads_tag MergeItem) items
      | YTagged _ body => reads_tag MergeValue body
      | _ => false
      end
  | MergeItem =>
      match n with
      | YMap pairs | YSet pairs => in_pairs pairs
      | YTagged _ body => reads_tag MergeItem body
      | _ => false
      end
  | OmapItem =>
      match n with
      | YMap [(kn, vn)] | YSet [(kn, vn)] =>
          reads_tag Value kn || reads_tag Value vn
      | YTagged _ body => reads_tag OmapItem body
      | _ => false
      end
  end.


(** Does the constructor meet such a tag in a pair of a mapping? *)
Definition in_pairs (kv : node * node) : bool :=
  match kv with
  | (YMerge, vn) => reads_tag MergeValue vn
  | (kn, vn) => reads_tag Value kn || reads_tag Value vn
  end.

(** A node is well behaved when, at every position, the constructor
    raises nothing but [ConstructorError] on it, and raises whenever it
    meets a tag outside its table. *)
Definition well_behaved (n : node) : Prop :=
  (forall pos e, construct_at pos n = inl e -> is_ConstructorError e = true)
  /\ (forall pos, reads_tag pos n = true ->
                  exists e, construct_at pos n = inl e).

(** [yaml.safe_load(stream)]. *)
Definition safe_load (s : stream) : result value :=
  match s with
  | Malformed problem => raise (YAMLError problem)
  | Empty => ret PyNone
  | Several =>
      raise (YAMLError "expected a single document in the stream")
  | Document root => construct root
  end.

(** The name of the type of a value, as an [AttributeError] prints it. *)
Definition type_name (v : value) : string :=
  match v with
  | PyNone => "NoneType"
  | PyBool _ => "bool"
  | PyInt _ => "int"
  | PyStr _ => "str"
  | PyList _ => "list"
  | PyDict _ => "dict"
  | PyFloat _ => "float"
  | PyBytes _ => "bytes"
  | PyDate (Date _ _ _) => "datetime.date"
  | PyDate (DateTime _ _ _ _ _ _) => "datetime.datetime"
  | PyTuple _ => "tuple"
  | PySet _ => "set"
  end.

Definition no_attribute (v : value) (attr : string) : exn :=
  AttributeError
    ("'" ++ type_name v ++ "' object has no attribute '" ++ attr ++ "'").

(** [d[key]] for the key ['query'], on the items of a [dict]: the value
    stored last under a key equal to the string. *)
Fixpoint lookup (key : string) (items : list (value * value))
  : option value :=
  match items with
  | [] => None
  | (k, v) :: items' =>
      match lookup key items' with
      | Some v' => Some v'
      | None =>
          match k with
          | PyStr s => if String.eqb s key then Some v else None
          | _ => None
          end
      end
  end.

(** [v.get(key)]: only a [dict] has the method; a missing key gives
    [None]. *)
Definition get (v : value) (key : string) : result value :=
  match v with
  | PyDict items =>
      match lookup key items with
      | Some x => ret x
      | None => ret PyNone
      end
  | _ => raise (no_attribute v "get")
  end.

(** Truth value. *)
Definition truthy (v : value) : bool :=
  match v with
  | PyNone => false
  | PyBool b => b
  | PyInt n => Py.int_truthy n
  | PyStr s => Py.truthy s
  | PyList items => match items with [] => false | _ => true end
  | PyDict items => match items with [] => false | _ => true end
  | PyFloat (Finite mantissa _) => Py.int_truthy mantissa
  | PyFloat _ => true
  | PyBytes b => Py.truthy b
  | PyDate _ => true
  | PyTuple items => match items with [] => false | _ => true end
  | PySet items => match items with [] => false | _ => true end
  end.

(** [v.isspace()]: a [str] and a [bytes] value have the method. *)
Definition isspace (v : value) : result bool :=
  match v with
  | PyStr s => ret (Py.isspace s)
  | PyBytes b => ret (Py.bytes_isspace b)
  | _ => raise (no_attribute v "isspace")
  end.

(** Induction on nodes that reaches below sequences and mappings. *)
Section NodeInduction.

Variable P : node -> Prop.
Hypothesis HNull : P YNull.
Hypothesis HBool : forall b, P (YBool b).
Hypothesis HInt : forall n, P (YInt n).
Hypothesis HStr : forall s, P (YStr s).
Hypothesis HFloat : forall x, P (YFloat x).
Hypothesis HBinary : forall data, P (YBinary data).
Hypothesis HTimestamp : forall t, P (YTimestamp t).
Hypothesis HMerge : P YMerge.
Hypothesis HSeq : forall items, Forall P items -> P (YSeq items).
Hypothesis HOmap : forall items, Forall P items -> P (YOmap items).
Hypothesis HPairs : forall items, Forall P items -> P (YPairs items).
Hypothesis HMap :
  forall pairs,
    Forall (fun kv : node * node => P (fst kv) /\ P (snd kv)) pairs ->
    P (YMap pairs).
Hypothesis HSet :
  forall pairs,
    Forall (fun kv : node * node => P (fst kv) /\ P (snd kv)) pairs ->
    P (YSet pairs).
Hypothesis HTagged : forall tag body, P body -> P (YTagged tag body).

Fixpoint node_induction (n : node) : P n :=
  let all_items :=
    fix all (l : list node) : Forall P l :=
      match l with
      | [] => Forall_nil P
      | x :: l' => Forall_cons x (node_induction x) (all l')
      end in
  let all_pairs :=
    fix all (l : list (node * node))
      : Forall (fun kv : node * node => P (fst kv) /\ P (snd kv)) l :=
      match l with
      | [] => Forall_nil _
      | (k, v) :: l' =>
          Forall_cons (k, v)
            (conj (node_induction k) (node_induction v)) (all l')
      end in
  match n with
  | YNull => HNull
  | YBool b => HBool b
  | YInt z => HInt z
  | YStr s => HStr s
  | YFloat x => HFloat x
  | YBinary data => HBinary data
  | YTimestamp t => HTimestamp t
  | YMerge => HMerge
  | YSeq items => HSeq items (all_items items)
  | YOmap items => HOmap items (all_items items)
  | YPairs items => HPairs items (all_items items)
  | YMap pairs => HMap pairs (all_pairs pairs)
  | YSet pairs => HSet pairs (all_pairs pairs)
  | YTagged tag body => HTagged tag body (node_induction body)
  end.

End NodeInduction.

End Yaml.

(* ================================================================== *)
(** ** Photo search: [SQLi/views.py] *)

Module Albums.
Import Exn Json.

(** *** The models, as far as the search views read them *)

Record User : Type := MkUser {
  username : string;
  userprofile_id : Z
}.

Record Album : Type := MkAlbum {
  album_name : Z;
  album_owner : User
}.

Record Photo : Type := MkPhoto {
  id : Z;
  name : string;
  description : string;
  upload_url : string;
  owner : User;
  is_public : bool;
  uploaded_at : Z            (* seconds since the epoch *)
}.

(** *** ORM predicates

    The views only ever combine [Q] objects with [&], so a [Q] is kept
    as the conjunction of its field lookups; [Q()] is the empty one,
    and an empty [Q] is false as a condition. *)
Inductive lookup : Type :=
| name__icontains (v : string)
| description__icontains (v : string)
| uploaded_at__gt (v : Z)
| is_public_eq (v : bool)
| name__icontains_bytes (v : string).   (* [name__icontains] of [bytes] *)

Definition Q : Type := list lookup.

Definition Q_and (a b : Q) : Q := (a ++ b)%list.

Definition Q_bool (q : Q) : bool :=
  match q with [] => false | _ => true end.

(** A [bytes] value given to a pattern lookup is turned into text by
    [str], which prints it as [repr] does (Django from 2.0 on; earlier
    versions decode the bytes). *)
Definition matches (p : Photo) (l : lookup) : bool :=
  match l with
  | name__icontains v => Py.icontains v (name p)
  | description__icontains v => Py.icontains v (description p)
  | uploaded_at__gt v => Z.ltb v (uploaded_at p)
  | is_public_eq v => Bool.eqb (is_public p) v
  | name__icontains_bytes v => Py.icontains (Py.repr_bytes v) (name p)
  end.

(** The rows [Photo.objects.filter(q)] denotes in a table. *)
Definition filter_photos (db : list Photo) (q : Q) : list Photo :=
  filter (fun p => forallb (matches p) q) db.

(** What a view may leave under [context['photos']]: the empty list, a
    raw query with its statement text and bound parameters, or a lazy
    ORM query set. *)
Inductive photos_value : Type :=
| NoPhotos
| RawQuerySet (raw_query : string) (params : list string)
| QuerySet (q : Q).

(** Storage calls a handler makes while it runs. *)
Inductive effect : Type :=
| Album_get_or_create (name : Z) (owner : User)
| Photo_filter (q : Q) (limit : nat)
| User_get (owner : User).     (* [photo.owner] is read from storage *)

Record request : Type := Request {
  user : option User;              (* [None]: not authenticated *)
  GET : list (string * string)
}.

Record context : Type := Context {
  current_album : option Album;
  photos : photos_value;
  form_initial : list (string * option string)
}.

Record response : Type := JsonResponse {
  body : json;
  status : Z
}.

(** The part of a query the storage layer reads as code: the whole
    statement text of a raw query, the fields and operators of an ORM
    query set.  The values of the ORM lookups are data. *)
Inductive lookup_kind : Type :=
| k_name__icontains
| k_description__icontains
| k_uploaded_at__gt
| k_is_public.

Definition kind_of (l : lookup) : lookup_kind :=
  match l with
  | name__icontains _ => k_name__icontains
  | description__icontains _ => k_description__icontains
  | uploaded_at__gt _ => k_uploaded_at__gt
  | is_public_eq _ => k_is_public
  | name__icontains_bytes _ => k_name__icontains
  end.

Inductive query_code : Type :=
| NoCode
| SqlText (text : string)
| OrmShape (kinds : list lookup_kind).

Definition code_of (pv : photos_value) : query_code :=
  match pv with
  | NoPhotos => NoCode
  | RawQuerySet raw_query _ => SqlText raw_query
  | QuerySet q => OrmShape (map kind_of q)
  end.



(** [fmt % arg] for a format with [%s] and [%%] directives only. *)
Fixpoint percent_format (fmt arg : string) : string :=
  match fmt with
  | String "%" (String "%" rest) => String "%" (percent_format rest arg)
  | String "%" (String "s" rest) => arg ++ percent_format rest arg
  | String c rest => String c (percent_format rest arg)
  | EmptyString => EmptyString
  end.

(** *** [SearchPhotosFormView] *)
Module SearchPhotosFormView.

(** The three adjacent literals of the statement, joined. *)
Definition statement : string :=
  "SELECT * FROM albums_photo "
  ++ "WHERE name LIKE " ++ Py.str_of_char Py.dquote ++ "%%%s%%"
  ++ Py.str_of_char Py.dquote ++ " AND "
  ++ "is_public = 1".

Definition get_context_data (req : request) : list effect * context :=
  let (trace, album) :=
    match user req with
    | Some u =>
        ([Album_get_or_create (userprofile_id u) u],
         Some (MkAlbum (userprofile_id u) u))
    | None => ([], None)
    end in
  let query := Py.get "q" (GET req) in
  match query with
  | Some q =>
      if Py.searchable query then
        (trace,
Context album (RawQuerySet (percent_format statement q) [])
        [("q", query)])
else (trace, Context album NoPhotos [])
| None => (trace, Context album NoPhotos [])
end.

End SearchPhotosFormView.

(** *** [AdvancedSearchPhotosFormView] *)
Module AdvancedSearchPhotosFormView.

(** [timezone.now()] is the argument [now], in seconds. *)
Definition get_upload_period (now : Z) (uploaded_at : string) : option Z :=
  if String.eqb uploaded_at "hours" then Some (now - 24 * 3600)%Z
  else if String.eqb uploaded_at "week" then Some (now - 7 * 86400)%Z
  else if String.eqb uploaded_at "month" then Some (now - 30 * 86400)%Z
  else None.

Definition get_context_data (now : Z) (req : request)
  : list effect * context :=
  let name := Py.get "name" (GET req) in
  let description := Py.get "description" (GET req) in
  let uploaded_at := Py.get "uploaded_at" (GET req) in
  let initial := [("name", name); ("description", description);
                  ("uploaded_at", uploaded_at)] in
  let query : Q := [] in
  let query :=
    match name with
    | Some v =>
        if Py.searchable name then Q_and query [name__icontains v]
        else query
    | None => query
    end in
  let query :=
    match description with
    | Some v =>
        if Py.searchable description
        then Q_and query [description__icontains v]
        else query
    | None => query
    end in
  let query :=
    match uploaded_at with
    | Some v =>
        if Py.searchable uploaded_at then
          match get_upload_period now v with
          | Some period => Q_and query [uploaded_at__gt period]
          | None => query
          end
        else query
    | None => query
    end in
  if Q_bool query
  then ([], Context None (QuerySet (Q_and query [is_public_eq true]))
                    initial)
  else ([], Context None NoPhotos initial).

End AdvancedSearchPhotosFormView.

(** The dictionary built for each photo of a result. *)
Definition photo_dict (photo : Photo) : json :=
  JObj [("id", JInt (id photo));
        ("name", JStr (name photo));
        ("description", JStr (description photo));
        ("upload", JStr (upload_url photo));
        ("owner", JStr (username (owner photo)))].

(** [[... for photo in Photo.objects.filter(name__icontains=query,
    is_public=True)[:100]]]: the query is sent, at most 100 rows come
    back, and building the dictionary of a row reads the owner of the
    photo from storage, row by row. *)
Definition search_by (db : list Photo) (by_name : lookup)
  : list effect * list json :=
  let q := [by_name; is_public_eq true] in
  let rows := firstn 100 (filter_photos db q) in
  (Photo_filter q 100 :: map (fun photo => User_get (owner photo)) rows,
   map photo_dict rows).

Definition search_public (db : list Photo) (query : string)
  : list effect * list json :=
  search_by db (name__icontains query).

(** *** [XMLSearchPhotosAPIView] *)
Module XMLSearchPhotosAPIView.

(** The body of the [try]: [etree.parse(request, parser=parser)],
    then [tree.getroot().find('query').text]. *)
Definition parse_query (request : list DefusedXml.event)
                       (parser : DefusedXml.DefusedXMLParser)
  : result (option string) :=
  root <- snd (DefusedXml.parse request parser) ;;
  match DefusedXml.find "query" root with
  | Some q => ret (DefusedXml.text q)
  | None =>
      raise (AttributeError "'NoneType' object has no attribute 'text'")
  end.

Definition post (db : list Photo) (request : list DefusedXml.event)
  : list effect * result response :=
  let parser := DefusedXml.Parser true true true in
  match parse_query request parser with
  | inl e =>
      if is_ParseError e || is_ValueError e then
        ([], ret (JsonResponse
                    (JObj [("error", JStr ("XML parse - " ++ str e))])
                    400))
      else
        ([], ret (JsonResponse (JObj [("error", JStr (str e))]) 400))
  | inr query =>
      let (trace, photos) :=
        match query with
        | Some q =>
            if Py.searchable query then search_public db q else ([], [])
        | None => ([], [])
        end in
      (trace, ret (JsonResponse (JObj [("photos", JArr photos)]) 200))
  end.

End XMLSearchPhotosAPIView.

(** [query and not query.isspace()] on a [bytes] value. *)
Definition bytes_searchable (b : string) : bool :=
  Py.truthy b && negb (Py.bytes_isspace b).

(** *** [YAMLSearchPhotosAPIView] *)
Module YAMLSearchPhotosAPIView.

(** [query and not query.isspace()]: [isspace] is only called on a
    true value, and raises on one that is neither [str] nor [bytes]. *)
Definition guard (query : Yaml.value) : result bool :=
  if Yaml.truthy query then
    sp <- Yaml.isspace query ;; ret (negb sp)
  else ret false.

(** The body of the [try]: [yaml.safe_load(request).get('query')]. *)
Definition parse_query (request : Yaml.stream) : result Yaml.value :=
  doc <- Yaml.safe_load request ;; Yaml.get doc "query".

Definition post (db : list Photo) (request : Yaml.stream)
  : list effect * result response :=
  match parse_query request with
  | inl e =>
      if is_AttributeError e then
        ([], ret (JsonResponse (JObj [("error", JStr (str e))]) 400))
      else ([], raise e)
  | inr query =>
      match guard query with
      | inl e => ([], raise e)
      | inr go =>
          let (trace, photos) :=
            if go then
              match query with
              | Yaml.PyStr q => search_public db q
              | Yaml.PyBytes b => search_by db (name__icontains_bytes b)
              | _ => ([], [])     (* the guard raised for any other *)
              end
            else ([], []) in
          (trace, ret (JsonResponse (JObj [("photos", JArr photos)]) 200))
      end
  end.

End YAMLSearchPhotosAPIView.

(** The statement text around the term in [SearchPhotosFormView]. *)
Definition statement_prefix : string :=
  "SELECT * FROM albums_photo WHERE name LIKE "
  ++ Py.str_of_char Py.dquote ++ "%".

Definition statement_suffix : string :=
  "%" ++ Py.str_of_char Py.dquote ++ " AND is_public = 1".

(** The code of an advanced search: it depends on which fields are
    filled in and on whether the period is a known one, not on what the
    terms are. *)
Definition advanced_shape (by_name by_description by_period : bool)
  : query_code :=
  let kinds :=
    ((if by_name then [k_name__icontains] else [])
     ++ (if by_description then [k_description__icontains] else [])
     ++ (if by_period then [k_uploaded_at__gt] else []))%list in
  match kinds with
  | [] => NoCode
  | _ => OrmShape (kinds ++ [k_is_public])%list
  end.

Definition known_period (now : Z) (uploaded_at : option string) : bool :=
  match uploaded_at with
  | Some v =>
      Py.searchable uploaded_at
      && match AdvancedSearchPhotosFormView.get_upload_period now v with
         | Some _ => true
         | None => false
         end
  | None => false
  end.

End Albums.

(* ================================================================== *)
(** ** The album and photo pages of [SQLi/views.py]

    These views read and write single rows, so the tables are modelled
    with their keys: a row carries its primary key, and a foreign key is
    the primary key of the row it refers to.  A query set is the list of
    rows it denotes, in table order.  A view that needs a signed-in user
    ([LoginRequiredMixin]) takes that user as an argument. *)

Module Gallery.

Record UserRow : Type := MkUserRow {
  u_pk : Z;
  u_username : string;
  u_userprofile_id : Z
}.

Record AlbumRow : Type := MkAlbumRow {
  a_pk : Z;
  a_name : string;
  a_owner : Z
}.

Record PhotoRow : Type := MkPhotoRow {
  p_pk : Z;
  p_name : string;
  p_upload : string;               (* name of the uploaded file *)
  p_upload_thumbnail_path : string;
  p_owner : Z;
  p_album : Z;
  p_is_public : bool;
  p_views : Z;
  p_uploaded_at : Z
}.

Record database : Type := Database {
  users : list UserRow;
  albums : list AlbumRow;
  photos : list PhotoRow
}.

Inductive failure : Type :=
| Http404
| DoesNotExist
| MultipleObjectsReturned
| FileNotFoundError (path : string).

Definition result (A : Type) : Type := (failure + A)%type.

(** A view runs against the tables, may change them, and returns or
    raises. *)
Definition M (A : Type) : Type := database -> database * result A.

Definition pure {A : Type} (a : A) : M A := fun db => (db, inr a).

Definition bindM {A B : Type} (m : M A) (k : A -> M B) : M B :=
  fun db =>
    match m db with
    | (db', inl e) => (db', inl e)
    | (db', inr a) => k a db'
    end.

(** A query: it reads the tables and leaves them as they are. *)
Definition query {A : Type} (q : database -> result A) : M A :=
  fun db => (db, q db).

(** [str(n)] for an integer. *)
Definition str (n : Z) : string := NilZero.string_of_int (Z.to_int n).

(** [QuerySet.get]: the one row that satisfies the condition. *)
Definition get {A : Type} (cond : A -> bool) (rows : list A) : result A :=
  match filter cond rows with
  | [] => inl DoesNotExist
  | [row] => inr row
  | _ :: _ :: _ => inl MultipleObjectsReturned
  end.

(** [get_object_or_404]: a missing row becomes a 404 answer. *)
Definition get_object_or_404 {A : Type} (cond : A -> bool) (rows : list A)
  : result A :=
  match get cond rows with
  | inl DoesNotExist => inl Http404
  | r => r
  end.

(** The key a new row of a table gets: one above the largest in use. *)
Definition next_pk (pks : list Z) : Z := (1 + fold_right Z.max 0 pks)%Z.

(** [order_by('-uploaded_at')] and the like: descending by a key, rows
    with equal keys staying in table order. *)
Fixpoint insert_desc {A : Type} (key : A -> Z) (x : A) (l : list A)
  : list A :=
  match l with
  | [] => [x]
  | y :: l' =>
      if (key y <=? key x)%Z then x :: y :: l'
      else y :: insert_desc key x l'
  end.

Definition order_by_desc {A : Type} (key : A -> Z) (l : list A) : list A :=
  fold_right (insert_desc key) [] l.

(** [Album.objects.get_or_create(name=..., owner=...)]. *)
Definition get_or_create_album (name : string) (owner : Z)
  : M (AlbumRow * bool) :=
  fun db =>
    match get (fun a => String.eqb (a_name a) name && (a_owner a =? owner)%Z)
              (albums db) with
    | inr album => (db, inr (album, false))
    | inl DoesNotExist =>
        let album := MkAlbumRow (next_pk (map a_pk (albums db))) name owner in
        (Database (users db) (albums db ++ [album])%list (photos db),
         inr (album, true))
    | inl e => (db, inl e)
    end.

(** [instance.save()] on a row read from the table: the row with its
    key is overwritten; a key not in the table is inserted. *)
Definition save_photo (photo : PhotoRow) : M unit :=
  fun db =>
    let same p := (p_pk p =? p_pk photo)%Z in
    let rows :=
      if existsb same (photos db)
      then map (fun p => if same p then photo else p) (photos db)
      else (photos db ++ [photo])%list in
    (Database (users db) (albums db) rows, inr tt).

(** [instance.save()] on an instance without a key: it is inserted
    under a new key. *)
Definition insert_photo (photo : PhotoRow) : M PhotoRow :=
  fun db =>
    let row :=
      MkPhotoRow (next_pk (map p_pk (photos db))) (p_name photo)
                 (p_upload photo) (p_upload_thumbnail_path photo)
                 (p_owner photo) (p_album photo) (p_is_public photo)
                 (p_views photo) (p_uploaded_at photo) in
    (Database (users db) (albums db) (photos db ++ [row])%list, inr row).

Definition insert_album (album : AlbumRow) : M AlbumRow :=
  fun db =>
    let row :=
      MkAlbumRow (next_pk (map a_pk (albums db))) (a_name album)
                 (a_owner album) in
    (Database (users db) (albums db ++ [row])%list (photos db), inr row).

(** [request.user.pk != owner.pk]; the anonymous user has no key. *)
Definition is_other (user : option UserRow) (owner : UserRow) : bool :=
  match user with
  | Some u => negb (u_pk u =? u_pk owner)%Z
  | None => true
  end.

(** A URL given by the name of its route and its arguments. *)
Record url : Type := reverse_lazy {
  viewname : string;
  kwargs : list (string * string)
}.

(** *** [HomeTemplateView] *)
Module HomeTemplateView.

Record context : Type := Context {
  current_album : option AlbumRow;
  context_albums : list AlbumRow;
  context_photos : list PhotoRow
}.

Definition get_context_data (user : option UserRow) : M context :=
  match user with
  | Some u =>
      bindM (get_or_create_album (str (u_userprofile_id u)) (u_pk u))
        (fun home_created =>
           let home := fst home_created in
           query (fun db =>
             let albums :=
               filter (fun a => negb (String.eqb (a_name a) (a_name home)))
                 (filter (fun a => (a_owner a =? u_pk u)%Z) (albums db)) in
             let photos :=
               order_by_desc p_uploaded_at
                 (filter (fun p => (p_owner p =? u_pk u)%Z
                                   && (p_album p =? a_pk home)%Z)
                         (photos db)) in
             inr (Context (Some home) albums photos)))
  | None => pure (Context None [] [])
  end.

End HomeTemplateView.

(** *** [AlbumTemplateView] *)
Module AlbumTemplateView.

Record context : Type := Context {
  current_album : AlbumRow;
  context_photos : list PhotoRow
}.

Definition get_context_data (user : UserRow) (album : string) : M context :=
  query (fun db =>
    match get_object_or_404
            (fun a => String.eqb (a_name a) album
                      && (a_owner a =? u_pk user)%Z)
            (albums db) with
    | inl e => inl e
    | inr album =>
        let photos :=
          order_by_desc p_uploaded_at
            (filter (fun p => (p_owner p =? u_pk user)%Z
                              && (p_album p =? a_pk album)%Z)
                    (photos db)) in
        inr (Context album photos)
    end).

End AlbumTemplateView.

(** *** [CreateAlbumFormView] *)
Module CreateAlbumFormView.

(** [form.save(commit=False)] is the argument [album]; its key and its
    owner are not read. *)
Definition form_valid (user : UserRow) (album : AlbumRow) : M url :=
  let album := MkAlbumRow (a_pk album) (a_name album) (u_pk user) in
  bindM (insert_album album)
    (fun album =>
       pure (reverse_lazy "album:sub-album" [("album", a_name album)])).

End CreateAlbumFormView.

(** *** [UploadPhotoFormView] *)
Module UploadPhotoFormView.

Definition get_success_url (user : UserRow) (album : string) : url :=
  if String.eqb album (str (u_userprofile_id user))
  then reverse_lazy "home" []
  else reverse_lazy "album:sub-album" [("album", album)].

(** [form.save(commit=False)] is the argument [photo], and [form_name]
    is [form.data.get('name')]. *)
Definition form_valid (user : UserRow) (album : string) (photo : PhotoRow)
    (form_name : option string) : M url :=
  bindM (query (fun db =>
           get (fun a => String.eqb (a_name a) album
                         && (a_owner a =? u_pk user)%Z)
               (albums db)))
    (fun album_row =>
       let name :=
         match form_name with
         | Some n => if Py.truthy n then p_name photo else p_upload photo
         | None => p_upload photo
         end in
       let photo :=
         MkPhotoRow (p_pk photo) name (p_upload photo)
                    (p_upload_thumbnail_path photo) (u_pk user)
                    (a_pk album_row) (p_is_public photo) (p_views photo)
                    (p_uploaded_at photo) in
       bindM (insert_photo photo)
         (fun _ => pure (get_success_url user album))).

End UploadPhotoFormView.

(** *** [PhotoTemplateView] *)
Module PhotoTemplateView.

Definition set_views (photo : PhotoRow) : M PhotoRow :=
  let photo :=
    MkPhotoRow (p_pk photo) (p_name photo) (p_upload photo)
               (p_upload_thumbnail_path photo) (p_owner photo)
               (p_album photo) (p_is_public photo) (p_views photo + 1)%Z
               (p_uploaded_at photo) in
  bindM (save_photo photo) (fun _ => pure photo).

(** The value left under [context['photo']]. *)
Definition get_context_data (user : option UserRow) (username : string)
    (pk : Z) : M PhotoRow :=
  bindM (query (fun db =>
           get_object_or_404 (fun u => String.eqb (u_username u) username)
                             (users db)))
    (fun owner =>
       bindM (query (fun db =>
                get_object_or_404
                  (fun p => (p_pk p =? pk)%Z && (p_owner p =? u_pk owner)%Z)
                  (photos db)))
         (fun photo =>
            if is_other user owner then
              bindM (query (fun db =>
                       get_object_or_404
                         (fun p => (p_pk p =? pk)%Z
                                   && (p_owner p =? u_pk owner)%Z
                                   && Bool.eqb (p_is_public p) true)
                         (photos db)))
                set_views
            else pure photo)).

End PhotoTemplateView.

(** A file answer: what was read from the file and the headers the view
    sets on it. *)
Record FileResponse : Type := MkFileResponse {
  content : string;
  headers : list (string * string)
}.

(** [FileResponse(open(path, 'rb'))], given what the file system holds
    under each path. *)
Definition open_file (files : string -> option string) (path : string)
  : result FileResponse :=
  match files path with
  | Some bytes => inr (MkFileResponse bytes [])
  | None => inl (FileNotFoundError path)
  end.

(** [response[header] = value]. *)
Definition set_header (header value : string) (r : FileResponse)
  : FileResponse :=
  MkFileResponse (content r)
    (filter (fun h => negb (String.eqb (fst h) header)) (headers r)
     ++ [(header, value)])%list.

(** *** [PhotoLinkView] *)
Module PhotoLinkView.

Definition get_object (user : UserRow) (pk : Z) (db : database)
  : result PhotoRow :=
  get_object_or_404
    (fun p => (p_pk p =? pk)%Z && (p_owner p =? u_pk user)%Z) (photos db).

Definition get (files : string -> option string) (user : UserRow) (pk : Z)
    (db : database) : result FileResponse :=
  match get_object user pk db with
  | inl e => inl e
  | inr photo =>
      match open_file files (p_upload_thumbnail_path photo) with
      | inl e => inl e
      | inr response => inr (set_header "content-type" "text/plain" response)
      end
  end.

End PhotoLinkView.

(** *** [PublicPhotoLinkView] *)
Module PublicPhotoLinkView.

Definition get_object (pk : Z) (db : database) : result PhotoRow :=
  get_object_or_404
    (fun p => (p_pk p =? pk)%Z && Bool.eqb (p_is_public p) true) (photos db).

Definition get (files : string -> option string) (pk : Z) (db : database)
  : result FileResponse :=
  match get_object pk db with
  | inl e => inl e
  | inr photo =>
      match open_file files (p_upload_thumbnail_path photo) with
      | inl e => inl e
      | inr response =>
          inr (set_header "content-security-policy" "sandbox"
                 (set_header "content-type" "text/plain" response))
      end
  end.

End PublicPhotoLinkView.

(** *** [UserPhotosTemplateView] *)
Module UserPhotosTemplateView.

Record context : Type := Context {
  context_photos : list PhotoRow;
  context_owner : UserRow
}.

Definition get_context_data (user : option UserRow) (username : string)
    (db : database) : result context :=
  match get_object_or_404 (fun u => String.eqb (u_username u) username)
                          (users db) with
  | inl e => inl e
  | inr owner =>
      let photos := filter (fun p => (p_owner p =? u_pk owner)%Z) (photos db) in
      let photos :=
        if is_other user owner
        then filter (fun p => Bool.eqb (p_is_public p) true) photos
        else photos in
      inr (Context photos owner)
  end.

End UserPhotosTemplateView.

End Gallery.

(* ================================================================== *)
(** ** Sample requests, payloads and tables *)

Module Fixtures.
Import Albums.

(** A resolver that answers every lookup, and one that fails them. *)
Definition shell_ok (cmd : string) : string := "Name: dns.google".
Definition process_ok (args : list string) : string * Z :=
  ("Name: dns.google", 0%Z).
Definition process_failed (args : list string) : string * Z :=
  ("** server can't find host", 1%Z).

Definition post_domain (input : string) : NameServer.request :=
  NameServer.Request "POST" [("domain_url", input)].

Definition alice : User := MkUser "alice" 7.

Definition cat : Photo :=
  MkPhoto 1 "Cat on a sofa" "a cat" "/media/cat.jpg" alice true 1000.

Definition diary : Photo :=
  MkPhoto 2 "Catalogue of secrets" "private" "/media/diary.jpg" alice false
          2000.

Definition table : list Photo := [cat; diary].

Definition dq : string := Py.str_of_char Py.dquote.

(** The term of the spec's injection test: an [x], a double quote,
    [ OR ], and the comparison of two quoted [1]s with the last quote
    left out. *)
Definition injection : string :=
  "x" ++ dq ++ " OR " ++ dq ++ "1" ++ dq ++ "=" ++ dq ++ "1".

Definition get_q (term : string) : request := Request None [("q", term)].
Definition get_name (term : string) : request :=
  Request None [("name", term)].

(** [<search><query>term</query></search>] *)
Definition xml_query (term : string) : list DefusedXml.event :=
  [DefusedXml.StartElement "search"; DefusedXml.StartElement "query";
   DefusedXml.CharacterData term;
   DefusedXml.EndElement "query"; DefusedXml.EndElement "search"].

(** [query: term] *)
Definition yaml_query (term : Yaml.node) : Yaml.stream :=
  Yaml.Document (Yaml.YMap [(Yaml.YStr "query", term)]).

(** A search by name among the uploads of the last day. *)
Definition last_day : request :=
  Request None [("name", "sofa"); ("uploaded_at", "hours")].

(** An advanced search that fills in the three fields. *)
Definition full_search : request :=
  Request None [("name", injection); ("description", "100%");
                ("uploaded_at", "week")].



(** A document type with an entity, referred to in the query. *)
Definition billion : list DefusedXml.event :=
  [DefusedXml.StartDoctypeDecl "search" None None;
   DefusedXml.EntityDecl "lol" (Some "lolololol") None None;
   DefusedXml.StartElement "search"; DefusedXml.StartElement "query";
   DefusedXml.EntityRef "lol";
   DefusedXml.EndElement "query"; DefusedXml.EndElement "search"].

End Fixtures.

(* ================================================================== *)
(** ** Sample tables of the album and photo pages *)

Module GalleryFixtures.
Import Gallery.

(** The primary keys of the album and of the photo table are unique. *)
Definition keys_unique (db : database) : Prop :=
  NoDup (map a_pk (albums db)) /\ NoDup (map p_pk (photos db)).

(** A photo after one more view. *)
Definition viewed (photo : PhotoRow) : PhotoRow :=
  MkPhotoRow (p_pk photo) (p_name photo) (p_upload photo)
             (p_upload_thumbnail_path photo) (p_owner photo)
             (p_album photo) (p_is_public photo) (p_views photo + 1)%Z
             (p_uploaded_at photo).

(** Descending by a key. *)
Definition descending {A : Type} (key : A -> Z) (a b : A) : Prop :=
  (key b <= key a)%Z.

Definition ann : UserRow := MkUserRow 1 "ann" 10.
Definition bob : UserRow := MkUserRow 2 "bob" 20.

Definition ann_home : AlbumRow := MkAlbumRow 1 "10" 1.
Definition ann_trips : AlbumRow := MkAlbumRow 2 "trips" 1.

Definition beach : PhotoRow :=
  MkPhotoRow 1 "beach" "beach.jpg" "/thumbs/beach.jpg" 1 2 true 5 300.
Definition passport : PhotoRow :=
  MkPhotoRow 2 "passport" "passport.jpg" "/thumbs/passport.jpg" 1 2 false
             0 400.
Definition garden : PhotoRow :=
  MkPhotoRow 3 "garden" "garden.jpg" "/thumbs/garden.jpg" 1 1 true 2 100.

Definition site : database :=
  Database [ann; bob] [ann_home; ann_trips] [beach; passport; garden].

Definition disk (path : string) : option string :=
  if String.eqb path "/thumbs/beach.jpg" then Some "beach-bytes"
  else if String.eqb path "/thumbs/passport.jpg" then Some "passport-bytes"
  else None.

(** The tables after Bob has looked at Ann's beach photo. *)
Definition site_after_visit : database :=
  Database [ann; bob] [ann_home; ann_trips] [viewed beach; passport; garden].

(** The tables after Bob has opened the home page for the first time. *)
Definition bob_home : AlbumRow := MkAlbumRow 3 "20" 2.

Definition site_with_bob_home : database :=
  Database [ann; bob] [ann_home; ann_trips; bob_home]
           [beach; passport; garden].

(** The tables after Ann has uploaded the draft below into her trips. *)
Definition hills : PhotoRow :=
  MkPhotoRow 4 "hills.jpg" "hills.jpg" "/thumbs/hills.jpg" 1 2 true 0 500.

Definition site_with_hills : database :=
  Database [ann; bob] [ann_home; ann_trips] [beach; passport; garden; hills].

(** What an upload form hands over before the view fills in the owner
    and the album. *)
Definition draft : PhotoRow :=
  MkPhotoRow 0 "" "hills.jpg" "/thumbs/hills.jpg" 0 0 true 0 500.

End GalleryFixtures.

(* ================================================================== *)
(** * Properties of the handlers *)

(** ** Facts about the string primitives *)

Module PyFacts.
Import Py.



Lemma searchable_None : searchable None = false.
Proof. reflexivity. Qed.

Lemma searchable_empty : searchable (Some "") = false.
Proof. reflexivity. Qed.

Lemma searchable_isspace (s : string) :
  isspace s = true -> searchable (Some s) = false.
Proof.
  intro H. unfold searchable. rewrite H. apply andb_false_r.
Qed.

End PyFacts.

(** ** Domain lookup *)

Module NameServerSpec.
Import NameServer.




Section Handlers.

Variable clean_domain_url : option string -> option string.
Variable popen3_stdout : string -> string.
Variable Popen_communicate : list string -> string * Z.



(** C2, as amended: for a POST whose domain the form accepts,
    [solution.py] starts [nslookup] from the argument vector
    [['nslookup', domain]], the domain being one element of it and no
    shell being involved, while [views.py] hands the shell the
    concatenation ['nslookup ' + domain]. *)
Theorem C2_sink_per_variant (req : request) (domain : string) :
  method req = "POST" ->
  cleaned_data clean_domain_url (Form true (POST req)) = Some domain ->
  fst (Solution.index clean_domain_url Popen_communicate req)
  = [Popen_call ["nslookup"; domain]]
  /\ fst (Views.index clean_domain_url popen3_stdout req)
     = [popen3_call ("nslookup " ++ domain)].
Proof.
  intros Hm Hc. unfold Solution.index, Views.index.
  rewrite Hm, Hc. simpl.
  destruct (Popen_communicate ["nslookup"; domain]). split; reflexivity.
Qed.

(** C8: in [solution.py], when the process started for an accepted
    domain ends with a return code other than zero, the output handed
    to the template is the fixed message, not what the process
    wrote. *)
Theorem C8_nonzero_return_code (req : request) (domain stdout : string)
    (returncode : Z) :
  method req = "POST" ->
  cleaned_data clean_domain_url (Form true (POST req)) = Some domain ->
  Popen_communicate ["nslookup"; domain] = (stdout, returncode) ->
  returncode <> 0%Z ->
  output (snd (Solution.index clean_domain_url Popen_communicate req))
  = Some "Please enter valid domain.".
Proof.
  intros Hm Hc Hp Hr. unfold Solution.index.
  rewrite Hm, Hc. simpl. rewrite Hp. simpl.
  unfold Py.int_truthy.
  destruct (Z.eqb_spec returncode 0) as [E | _]; [contradiction | reflexivity].
Qed.


End Handlers.

End NameServerSpec.

Module NameServerExamples.
Import NameServer Fixtures NameServerSpec.



(** C2, as stated, fails on [views.py]: the accepted domain [8.8.8.8]
    reaches the shell inside one command line, and no argument vector
    is ever built. *)
Lemma C2_views_concatenates :
  cleaned_data spec_clean_domain_url (Form true (POST (post_domain "8.8.8.8")))
  = Some "8.8.8.8"
  /\ fst (Views.index spec_clean_domain_url shell_ok (post_domain "8.8.8.8"))
     = [popen3_call "nslookup 8.8.8.8"]
  /\ fst (Views.index spec_clean_domain_url shell_ok (post_domain "8.8.8.8"))
     <> [Popen_call ["nslookup"; "8.8.8.8"]].
Proof.
  split; [reflexivity | split; [reflexivity | discriminate]].
Qed.

Lemma C2_witness :
  fst (Solution.index spec_clean_domain_url process_ok (post_domain "8.8.8.8"))
  = [Popen_call ["nslookup"; "8.8.8.8"]]
  /\ fst (Views.index spec_clean_domain_url shell_ok (post_domain "8.8.8.8"))
     = [popen3_call ("nslookup " ++ "8.8.8.8")].
Proof.
  apply (C2_sink_per_variant spec_clean_domain_url shell_ok process_ok
           (post_domain "8.8.8.8") "8.8.8.8"); reflexivity.
Defined.

Lemma C8_witness :
  output (snd (Solution.index spec_clean_domain_url process_failed
                 (post_domain "8.8.8.8")))
  = Some "Please enter valid domain.".
Proof.
  apply (C8_nonzero_return_code spec_clean_domain_url process_failed
           (post_domain "8.8.8.8") "8.8.8.8" "** server can't find host"
           1%Z); [reflexivity | reflexivity | reflexivity | discriminate].
Defined.

End NameServerExamples.

(** ** The XML parser under the handler's configuration *)

Module DefusedXmlFacts.
Import Exn DefusedXml.

Lemma pristine_initial : pristine initial.
Proof. split; reflexivity. Qed.

Lemma add_data_entities (d : string) (st : state) :
  entities (add_data d st) = entities st
  /\ expansions (add_data d st) = expansions st.
Proof.
  unfold add_data.
  destruct (stack st) as [| [t txt [| k kids]] rest]; split; reflexivity.
Qed.

(** Under the strict configuration a step never declares or expands an
    entity. *)
Lemma step_strict_pristine (st st' : state) (ev : event) :
  pristine st -> step strict st ev = inr st' -> pristine st'.
Proof.
  intros [He Hx] Hstep. unfold pristine.
  destruct ev; simpl in Hstep; try discriminate Hstep.
  - rewrite He in Hstep. simpl in Hstep. discriminate Hstep.
  - destruct (stack st) as [| f rest]; [destruct (root st) |];
      try discriminate Hstep; inversion Hstep; subst; simpl; auto.
  - destruct (stack st) as [| [t txt kids] rest]; [discriminate Hstep |].
    destruct (String.eqb t tag); [| discriminate Hstep].
    destruct rest as [| [pt ptxt pkids] rest'];
      inversion Hstep; subst; simpl; auto.
  - inversion Hstep; subst.
    destruct (add_data_entities data st) as [-> ->]. auto.
Qed.

(** Whatever a step raises is caught by the first [except] clause. *)
Lemma step_raises_caught (p : DefusedXMLParser) (st : state) (ev : event)
    (e : exn) :
  step p st ev = inl e -> is_ParseError e || is_ValueError e = true.
Proof.
  intro Hstep.
  destruct ev; simpl in Hstep.
  - destruct (forbid_dtd p); inversion Hstep; reflexivity.
  - destruct (forbid_entities p); [inversion Hstep; reflexivity |].
    destruct value; discriminate Hstep.
  - destruct (forbid_external p); inversion Hstep; reflexivity.
  - destruct (Py.get name (rev (entities st)));
      inversion Hstep; reflexivity.
  - destruct (stack st); [destruct (root st) |];
      inversion Hstep; reflexivity.
  - destruct (stack st) as [| [t txt kids] rest];
      [inversion Hstep; reflexivity |].
    destruct (String.eqb t tag); [| inversion Hstep; reflexivity].
    destruct rest as [| [pt ptxt pkids] rest']; discriminate Hstep.
  - discriminate Hstep.
  - inversion Hstep; reflexivity.
Qed.

Lemma close_raises_caught (st : state) (e : exn) :
  close st = inl e -> is_ParseError e = true.
Proof.
  unfold close.
  destruct (stack st); [destruct (root st) |];
    intro H; inversion H; reflexivity.
Qed.

(** A declaration stops the strict parser on the spot. *)
Lemma step_strict_declaration (st : state) (ev : event) :
  is_declaration ev = true -> exists e, step strict st ev = inl e.
Proof.
  destruct ev; simpl; try discriminate; intros _; eexists; reflexivity.
Qed.

(** Reading a payload with a declaration in it, from a pristine state:
    the strict parser raises, and no entity was expanded on the way. *)
Lemma feed_strict_declaration (evs : list event) :
  forall st : state,
    pristine st ->
    existsb is_declaration evs = true ->
    exists e, feed strict st evs = (0, inl e)
              /\ is_ParseError e || is_ValueError e = true.
Proof.
  induction evs as [| ev evs IH]; intros st Hp Hex.
  - discriminate Hex.
  - simpl in Hex. simpl.
    destruct (step strict st ev) as [e | st'] eqn:Hstep.
    + exists e. destruct Hp as [_ ->].
      split; [reflexivity | exact (step_raises_caught _ _ _ _ Hstep)].
    + destruct (is_declaration ev) eqn:Hd.
      * destruct (step_strict_declaration st ev Hd) as [e He].
        rewrite He in Hstep. discriminate Hstep.
      * apply IH; [exact (step_strict_pristine _ _ _ Hp Hstep) | exact Hex].
Qed.

(** Every exception of a parse, whatever the configuration, is one the
    first [except] clause names. *)
Lemma feed_raises_caught (p : DefusedXMLParser) (evs : list event) :
  forall (st : state) (n : nat) (e : exn),
    feed p st evs = (n, inl e) -> is_ParseError e || is_ValueError e = true.
Proof.
  induction evs as [| ev evs IH]; intros st n e H; simpl in H.
  - inversion H as [[Hn Hc]].
    rewrite (close_raises_caught _ _ Hc). reflexivity.
  - destruct (step p st ev) as [e' | st'] eqn:Hstep.
    + inversion H; subst. exact (step_raises_caught _ _ _ _ Hstep).
    + exact (IH _ _ _ H).
Qed.

(** What the configuration is for: a parser that forbids nothing reads
    the declaration and expands the entity into the query. *)
Example permissive_parser_expands :
  parse Fixtures.billion (Parser false false false)
  = (1, inr (Element "search" None
               [Element "query" (Some "lolololol") []])).
Proof. reflexivity. Qed.

Example strict_parser_refuses :
  parse Fixtures.billion strict = (0, inl (DTDForbidden "search" None None)).
Proof. reflexivity. Qed.

End DefusedXmlFacts.

(** ** [safe_load] *)

Module YamlFacts.
Import Exn Yaml.

Lemma construct_each_sound (pos : position) (l : list node) :
  Forall well_behaved l ->
  forall e, construct_each construct_at pos l = inl e ->
            is_ConstructorError e = true.
Proof.
  induction 1 as [| x l [Hx _] _ IH]; simpl; intros e H; [discriminate H |].
  destruct (construct_at pos x) as [ex | vx] eqn:Ex; simpl in H.
  - inversion H; subst. exact (Hx pos e Ex).
  - destruct (construct_each construct_at pos l) as [el | vl];
      simpl in H; [| discriminate H].
    inversion H; subst. now apply IH.
Qed.

Lemma construct_each_raising (pos : position) (l : list node) :
  Forall well_behaved l ->
  existsb (reads_tag pos) l = true ->
  exists e, construct_each construct_at pos l = inl e.
Proof.
  induction 1 as [| x l [_ Hx] _ IH]; simpl; intro H; [discriminate H |].
  destruct (construct_at pos x) as [ex | vx] eqn:Ex; simpl.
  - now exists ex.
  - apply orb_true_iff in H. destruct H as [H | H].
    + destruct (Hx pos H) as [e He]. rewrite Ex in He. discriminate He.
    + destruct (IH H) as [e He]. rewrite He. now exists e.
Qed.

Lemma construct_merge_list_sound (l : list node) :
  Forall well_behaved l ->
  forall e, construct_merge_list construct_at l = inl e ->
            is_ConstructorError e = true.
Proof.
  induction 1 as [| x l [Hx _] _ IH]; simpl; intros e H; [discriminate H |].
  destruct (construct_at MergeItem x) as [ex | vx] eqn:Ex; simpl in H.
  - inversion H; subst. exact (Hx _ e Ex).
  - destruct (construct_merge_list construct_at l) as [el | vl];
      simpl in H; [| discriminate H].
    inversion H; subst. now apply IH.
Qed.

Lemma construct_merge_list_raising (l : list node) :
  Forall well_behaved l ->
  existsb (reads_tag MergeItem) l = true ->
  exists e, construct_merge_list construct_at l = inl e.
Proof.
  induction 1 as [| x l [_ Hx] _ IH]; simpl; intro H; [discriminate H |].
  destruct (construct_at MergeItem x) as [ex | vx] eqn:Ex; simpl.
  - now exists ex.
  - apply orb_true_iff in H. destruct H as [H | H].
    + destruct (Hx _ H) as [e He]. rewrite Ex in He. discriminate He.
    + destruct (IH H) as [e He]. rewrite He. now exists e.
Qed.

(** One pair of a mapping whose key is not the merge key. *)
Lemma construct_pair_sound (kn vn : node) (l : list (node * node))
    (e : exn) :
  well_behaved kn -> well_behaved vn ->
  (forall e', construct_pairs construct_at l = inl e' ->
              is_ConstructorError e' = true) ->
  (k <- construct_at Value kn ;;
   if hashable k then
     v <- construct_at Value vn ;;
     rest <- construct_pairs construct_at l ;;
     ret (fst rest, (k, v) :: snd rest)
   else raise (ConstructorError "found unhashable key")) = inl e ->
  is_ConstructorError e = true.
Proof.
  intros [Hk _] [Hv _] IH.
  destruct (construct_at Value kn) as [ek | k] eqn:Ek; simpl.
  - intro H. inversion H; subst. exact (Hk _ _ Ek).
  - destruct (hashable k); [| intro H; inversion H; reflexivity].
    destruct (construct_at Value vn) as [ev | v] eqn:Ev; simpl.
    + intro H. inversion H; subst. exact (Hv _ _ Ev).
    + destruct (construct_pairs construct_at l) as [el | r]; simpl;
        intro H; [| discriminate H].
      inversion H; subst. now apply IH.
Qed.

Lemma construct_pair_raising (kn vn : node) (l : list (node * node)) :
  well_behaved kn -> well_behaved vn ->
  (reads_tag Value kn || reads_tag Value vn = true
   \/ exists e, construct_pairs construct_at l = inl e) ->
  exists e,
    (k <- construct_at Value kn ;;
     if hashable k then
       v <- construct_at Value vn ;;
       rest <- construct_pairs construct_at l ;;
       ret (fst rest, (k, v) :: snd rest)
     else raise (ConstructorError "found unhashable key")) = inl e.
Proof.
  intros [_ Hk] [_ Hv] H.
  destruct (construct_at Value kn) as [ek | k] eqn:Ek; simpl;
    [now exists ek |].
  destruct (hashable k); [| eexists; reflexivity].
  destruct (construct_at Value vn) as [ev | v] eqn:Ev; simpl;
    [now exists ev |].
  destruct H as [H | [e He]].
  - apply orb_true_iff in H. destruct H as [H | H].
    + destruct (Hk _ H) as [e He]. rewrite Ek in He. discriminate He.
    + destruct (Hv _ H) as [e He]. rewrite Ev in He. discriminate He.
  - rewrite He. now exists e.
Qed.

Lemma construct_pairs_sound (l : list (node * node)) :
  Forall (fun kv : node * node =>
            well_behaved (fst kv) /\ well_behaved (snd kv)) l ->
  forall e, construct_pairs construct_at l = inl e ->
            is_ConstructorError e = true.
Proof.
  induction 1 as [| [kn vn] l [Hk Hv] _ IH]; intros e;
    [simpl; discriminate |].
  cbn [fst snd] in Hk, Hv.
  destruct kn; cbn [construct_pairs];
    try exact (construct_pair_sound _ vn l e Hk Hv IH).
  destruct Hv as [Hv _].
  destruct (construct_at MergeValue vn) as [ev | d] eqn:Ev; simpl.
  - intro H. inversion H; subst. exact (Hv _ _ Ev).
  - destruct (construct_pairs construct_at l) as [el | r]; simpl;
      intro H; [| discriminate H].
    inversion H; subst. now apply IH.
Qed.

Lemma construct_pairs_raising (l : list (node * node)) :
  Forall (fun kv : node * node =>
            well_behaved (fst kv) /\ well_behaved (snd kv)) l ->
  existsb in_pairs l = true ->
  exists e, construct_pairs construct_at l = inl e.
Proof.
  induction 1 as [| [kn vn] l [Hk Hv] _ IH]; intro H;
    [simpl in H; discriminate H |].
  cbn [fst snd] in Hk, Hv. cbn [existsb] in H.
  apply orb_true_iff in H.
  destruct kn; cbn [construct_pairs];
    try (apply (construct_pair_raising _ vn l Hk Hv);
         destruct H as [H | H]; [left; exact H | right; exact (IH H)]).
  destruct Hv as [_ Hv].
  destruct (construct_at MergeValue vn) as [ev | d] eqn:Ev; simpl;
    [now exists ev |].
  destruct H as [H | H].
  - simpl in H. destruct (Hv _ H) as [e He]. rewrite Ev in He.
    discriminate He.
  - destruct (IH H) as [e He]. rewrite He. now exists e.
Qed.

Lemma construct_mapping_sound (l : list (node * node)) :
  Forall (fun kv : node * node =>
            well_behaved (fst kv) /\ well_behaved (snd kv)) l ->
  forall e, construct_mapping construct_at l = inl e ->
            is_ConstructorError e = true.
Proof.
  intros Hl e. unfold construct_mapping.
  destruct (construct_pairs construct_at l) as [el | r] eqn:E; simpl;
    intro H; [| discriminate H].
  inversion H; subst. exact (construct_pairs_sound l Hl e E).
Qed.

Lemma construct_mapping_raising (l : list (node * node)) :
  Forall (fun kv : node * node =>
            well_behaved (fst kv) /\ well_behaved (snd kv)) l ->
  existsb in_pairs l = true ->
  exists e, construct_mapping construct_at l = inl e.
Proof.
  intros Hl H. unfold construct_mapping.
  destruct (construct_pairs_raising l Hl H) as [e He].
  rewrite He. now exists e.
Qed.

Ltac bound_sound lemma Hl :=
  let e := fresh "e" in
  let H := fresh "H" in
  let el := fresh "el" in
  let E := fresh "E" in
  intros e H;
  match type of H with
  | bind ?m _ = _ =>
      destruct m as [el | ?] eqn:E; simpl in H;
      [inversion H; subst; exact (lemma _ Hl _ E) | discriminate H]
  end.

Ltac bound_raising lemma Hl :=
  let H := fresh "H" in
  let e := fresh "e" in
  let He := fresh "He" in
  intro H; destruct (lemma _ Hl H) as [e He]; rewrite He; now exists e.

(** The constructor raises nothing but [ConstructorError], and raises it
    whenever it meets a tag outside its table. *)
Lemma construct_spec (n : node) : well_behaved n.
Proof.
  induction n as [| b | z | s | x | data | t | | items IH | items IH
                  | items IH | pairs IH | pairs IH | tag body [IHs IHr]]
    using node_induction.
  1-8: split; intros [] ; simpl; try discriminate;
       intros e H; inversion H; reflexivity.
  - (* sequence *)
    split; intros []; cbn [construct_at reads_tag];
      try discriminate; try (intros e H; inversion H; reflexivity).
    + bound_sound (construct_each_sound Value) IH.
    + bound_sound construct_merge_list_sound IH.
    + bound_raising (construct_each_raising Value) IH.
    + bound_raising construct_merge_list_raising IH.
  - (* ordered map *)
    split; intros []; cbn [construct_at reads_tag];
      try discriminate; try (intros e H; inversion H; reflexivity).
    + bound_sound (construct_each_sound OmapItem) IH.
    + bound_sound construct_merge_list_sound IH.
    + bound_raising (construct_each_raising OmapItem) IH.
    + bound_raising construct_merge_list_raising IH.
  - (* pairs *)
    split; intros []; cbn [construct_at reads_tag];
      try discriminate; try (intros e H; inversion H; reflexivity).
    + bound_sound (construct_each_sound OmapItem) IH.
    + bound_sound construct_merge_list_sound IH.
    + bound_raising (construct_each_raising OmapItem) IH.
    + bound_raising construct_merge_list_raising IH.
  - (* mapping *)
    split; intros []; cbn [construct_at reads_tag].
    1-3: bound_sound construct_mapping_sound IH.
    2-4: bound_raising construct_mapping_raising IH.
    + destruct pairs as [| [kn vn] [| kv pairs]];
        try (intros e H; inversion H; reflexivity).
      inversion IH as [| ? ? [[Hk _] [Hv _]] _]; subst. cbn [fst snd] in *.
      intros e.
      destruct (construct_at Value kn) as [ek | k] eqn:Ek; simpl.
      * intro H. inversion H; subst. exact (Hk _ _ Ek).
      * destruct (construct_at Value vn) as [ev | v] eqn:Ev; simpl;
          intro H; [| discriminate H].
        inversion H; subst. exact (Hv _ _ Ev).
    + destruct pairs as [| [kn vn] [| kv pairs]]; try discriminate.
      inversion IH as [| ? ? [[_ Hk] [_ Hv]] _]; subst. cbn [fst snd] in *.
      intro H.
      destruct (construct_at Value kn) as [ek | k] eqn:Ek; simpl;
        [now exists ek |].
      destruct (construct_at Value vn) as [ev | v] eqn:Ev; simpl;
        [now exists ev |].
      apply orb_true_iff in H. destruct H as [H | H].
      * destruct (Hk _ H) as [e He]. rewrite Ek in He. discriminate He.
      * destruct (Hv _ H) as [e He]. rewrite Ev in He. discriminate He.
  - (* set *)
    split; intros []; cbn [construct_at reads_tag].
    1-3: bound_sound construct_mapping_sound IH.
    2-4: bound_raising construct_mapping_raising IH.
    + destruct pairs as [| [kn vn] [| kv pairs]];
        try (intros e H; inversion H; reflexivity).
      inversion IH as [| ? ? [[Hk _] [Hv _]] _]; subst. cbn [fst snd] in *.
      intros e.
      destruct (construct_at Value kn) as [ek | k] eqn:Ek; simpl.
      * intro H. inversion H; subst. exact (Hk _ _ Ek).
      * destruct (construct_at Value vn) as [ev | v] eqn:Ev; simpl;
          intro H; [| discriminate H].
        inversion H; subst. exact (Hv _ _ Ev).
    + destruct pairs as [| [kn vn] [| kv pairs]]; try discriminate.
      inversion IH as [| ? ? [[_ Hk] [_ Hv]] _]; subst. cbn [fst snd] in *.
      intro H.
      destruct (construct_at Value kn) as [ek | k] eqn:Ek; simpl;
        [now exists ek |].
      destruct (construct_at Value vn) as [ev | v] eqn:Ev; simpl;
        [now exists ev |].
      apply orb_true_iff in H. destruct H as [H | H].
      * destruct (Hk _ H) as [e He]. rewrite Ek in He. discriminate He.
      * destruct (Hv _ H) as [e He]. rewrite Ev in He. discriminate He.
  - (* a tag outside the table *)
    split; intros []; cbn [construct_at reads_tag];
      try (intros e H; inversion H; reflexivity);
      try (intros _; eexists; reflexivity);
      try (apply IHs); try (apply IHr).
Qed.


(** [safe_load] never raises an [AttributeError]. *)
Lemma safe_load_not_AttributeError (s : stream) (e : exn) :
  safe_load s = inl e -> is_AttributeError e = false.
Proof.
  destruct s as [problem | | | root]; simpl; intro H;
    try (inversion H; reflexivity).
  destruct (construct_spec root) as [Hce _].
  pose proof (Hce Value e H) as Hc. destruct e; try discriminate Hc.
  reflexivity.
Qed.

End YamlFacts.

(** ** Photo search *)

Module AlbumsSpec.
Import Exn Json Albums.

Lemma In_firstn {A : Type} (n : nat) (l : list A) (x : A) :
  In x (firstn n l) -> In x l.
Proof.
  intro H. rewrite <- (firstn_skipn n l). apply in_or_app. now left.
Qed.

(** What the ORM search of the two API views returns: at most 100
    dictionaries, each built from a public photo of the table that the
    lookup on the name matches; the photo query is followed by one read
    of the owner for each row. *)
Lemma search_by_sound (db : list Photo) (by_name : lookup) :
  fst (search_by db by_name)
  = Photo_filter [by_name; is_public_eq true] 100
    :: map (fun photo => User_get (owner photo))
           (firstn 100 (filter_photos db [by_name; is_public_eq true]))
  /\ length (snd (search_by db by_name)) <= 100
  /\ forall j, In j (snd (search_by db by_name)) ->
       exists p, In p db /\ is_public p = true
                 /\ matches p by_name = true
                 /\ j = photo_dict p.
Proof.
  unfold search_by. cbn [fst snd]. split; [reflexivity | split].
  - rewrite length_map. apply firstn_le_length.
  - intros j Hj. apply in_map_iff in Hj. destruct Hj as [p [Hp Hin]].
    apply In_firstn in Hin. apply filter_In in Hin.
    destruct Hin as [Hdb Hm]. cbn [forallb] in Hm.
    apply andb_true_iff in Hm. destruct Hm as [Hname Hpub].
    apply andb_true_iff in Hpub. destruct Hpub as [Hpub _].
    cbn [matches] in Hpub.
    exists p. repeat split; auto.
    now destruct (is_public p).
Qed.

Lemma search_public_sound (db : list Photo) (query : string) :
  length (snd (search_public db query)) <= 100
  /\ forall j, In j (snd (search_public db query)) ->
       exists p, In p db /\ is_public p = true
                 /\ Py.icontains query (name p) = true
                 /\ j = photo_dict p.
Proof.
  unfold search_public.
  destruct (search_by_sound db (name__icontains query)) as (_ & Hlen & Hin).
  split; [exact Hlen | exact Hin].
Qed.

(** The guard of the YAML view: a [str] or a [bytes] value goes ahead
    when it is not blank, any other true value makes it raise, and a
    false value stops the search. *)
Lemma guard_cases (query : Yaml.value) :
  YAMLSearchPhotosAPIView.guard query
  = match query with
    | Yaml.PyStr s => inr (Py.searchable (Some s))
    | Yaml.PyBytes b => inr (bytes_searchable b)
    | _ => if Yaml.truthy query
           then inl (Yaml.no_attribute query "isspace")
           else inr false
    end.
Proof.
  unfold YAMLSearchPhotosAPIView.guard, bytes_searchable, Py.searchable.
  destruct query as [| b | n | s | items | items | [m e | neg |] | b | t
                     | items | items];
    cbn [Yaml.truthy Yaml.isspace bind ret]; try reflexivity;
    try (now destruct items);
    try (now destruct (Py.truthy s)); try (now destruct (Py.truthy b)).
Qed.

(** The response of the XML view, case by case. *)
Lemma xml_post_cases (db : list Photo) (request : list DefusedXml.event) :
  match XMLSearchPhotosAPIView.parse_query request
          (DefusedXml.Parser true true true) with
  | inl e =>
      exists msg,
        XMLSearchPhotosAPIView.post db request
        = ([], inr (JsonResponse (JObj [("error", JStr msg)]) 400))
  | inr query =>
      if Py.searchable query then
        exists q, query = Some q
          /\ XMLSearchPhotosAPIView.post db request
             = (fst (search_public db q),
                inr (JsonResponse
                       (JObj [("photos", JArr (snd (search_public db q)))])
                       200))
      else
        XMLSearchPhotosAPIView.post db request
        = ([], inr (JsonResponse (JObj [("photos", JArr [])]) 200))
  end.
Proof.
  unfold XMLSearchPhotosAPIView.post.
  destruct (XMLSearchPhotosAPIView.parse_query request _) as [e | query].
  - destruct (is_ParseError e || is_ValueError e); eexists; reflexivity.
  - destruct query as [q |]; [| reflexivity].
    destruct (Py.searchable (Some q)); [| reflexivity].
    exists q. split; reflexivity.
Qed.


(** The response of the YAML view, case by case. *)
Lemma yaml_post_cases (db : list Photo) (request : Yaml.stream) :
  match YAMLSearchPhotosAPIView.parse_query request with
  | inl e =>
      YAMLSearchPhotosAPIView.post db request
      = if is_AttributeError e
        then ([], inr (JsonResponse (JObj [("error", JStr (str e))]) 400))
        else ([], inl e)
  | inr (Yaml.PyStr q) =>
      YAMLSearchPhotosAPIView.post db request
      = if Py.searchable (Some q)
        then (fst (search_public db q),
              inr (JsonResponse
                     (JObj [("photos", JArr (snd (search_public db q)))])
                     200))
        else ([], inr (JsonResponse (JObj [("photos", JArr [])]) 200))
  | inr (Yaml.PyBytes b) =>
      YAMLSearchPhotosAPIView.post db request
      = if bytes_searchable b
        then (fst (search_by db (name__icontains_bytes b)),
              inr (JsonResponse
                     (JObj [("photos",
                             JArr (snd (search_by db
                                          (name__icontains_bytes b))))])
                     200))
        else ([], inr (JsonResponse (JObj [("photos", JArr [])]) 200))
  | inr query =>
      YAMLSearchPhotosAPIView.post db request
      = if Yaml.truthy query
        then ([], inl (Yaml.no_attribute query "isspace"))
        else ([], inr (JsonResponse (JObj [("photos", JArr [])]) 200))
  end.
Proof.
  unfold YAMLSearchPhotosAPIView.post.
  destruct (YAMLSearchPhotosAPIView.parse_query request) as [e | query];
    [reflexivity |].
  rewrite guard_cases.
  destruct query as [| b | n | s | items | items | [m e | neg |] | b | t
                     | items | items];
    cbn [Yaml.truthy]; try reflexivity;
    try (now destruct b); try (now destruct items);
    try (now destruct (Py.int_truthy n));
    try (now destruct (Py.int_truthy m)).
  - destruct (Py.searchable (Some s)); [| reflexivity].
    now destruct (search_public db s).
  - destruct (bytes_searchable b); [| reflexivity].
    now destruct (search_by db (name__icontains_bytes b)).
Qed.

(** The conditions an advanced search collects, in the order of the
    view. *)
Lemma advanced_photos (now : Z) (req : request) :
  let by_name :=
    match Py.get "name" (GET req) with
    | Some v => if Py.searchable (Some v) then [name__icontains v] else []
    | None => []
    end in
  let by_description :=
    match Py.get "description" (GET req) with
    | Some v =>
        if Py.searchable (Some v) then [description__icontains v] else []
    | None => []
    end in
  let by_period :=
    match Py.get "uploaded_at" (GET req) with
    | Some v =>
        if Py.searchable (Some v) then
          match AdvancedSearchPhotosFormView.get_upload_period now v with
          | Some period => [uploaded_at__gt period]
          | None => []
          end
        else []
    | None => []
    end in
  let query := (by_name ++ by_description ++ by_period)%list in
  AdvancedSearchPhotosFormView.get_context_data now req
  = ([], Context None
           (if Q_bool query then QuerySet (query ++ [is_public_eq true])%list
            else NoPhotos)
           [("name", Py.get "name" (GET req));
            ("description", Py.get "description" (GET req));
            ("uploaded_at", Py.get "uploaded_at" (GET req))]).
Proof.
  unfold AdvancedSearchPhotosFormView.get_context_data. cbv zeta.
  destruct (Py.get "name" (GET req)) as [n |];
    [destruct (Py.searchable (Some n)) |];
    (destruct (Py.get "description" (GET req)) as [d |];
     [destruct (Py.searchable (Some d)) |]);
    (destruct (Py.get "uploaded_at" (GET req)) as [u |];
     [destruct (Py.searchable (Some u));
      [destruct (AdvancedSearchPhotosFormView.get_upload_period now u) |] |]);
    reflexivity.
Qed.

(** A query that holds a lookup is a true condition. *)
Lemma Q_bool_In (l : lookup) (q : Q) : In l q -> Q_bool q = true.
Proof. destruct q; [contradiction | reflexivity]. Qed.

End AlbumsSpec.

Module AlbumsClaims.
Import Exn Json Albums AlbumsSpec.

(** C4: an XML payload with a [<!DOCTYPE>] or an [<!ENTITY>] declaration
    is parsed by a parser built, before the parse, to forbid DTDs,
    entity declarations and external references; the parse raises
    without having expanded any entity, no storage call is made, and the
    answer is an error with status 400. *)
Theorem C4_declaration_rejected (db : list Photo)
    (request : list DefusedXml.event) :
  existsb DefusedXml.is_declaration request = true ->
  exists e,
    DefusedXml.parse request (DefusedXml.Parser true true true) = (0, inl e)
    /\ XMLSearchPhotosAPIView.post db request
       = ([], inr (JsonResponse
                     (JObj [("error", JStr ("XML parse - " ++ str e))])
                     400%Z)).
Proof.
  intro Hdecl.
  destruct (DefusedXmlFacts.feed_strict_declaration request
              DefusedXml.initial DefusedXmlFacts.pristine_initial Hdecl)
    as [e [Hfeed Hclass]].
  exists e. split; [exact Hfeed |].
  unfold XMLSearchPhotosAPIView.post, XMLSearchPhotosAPIView.parse_query.
  unfold DefusedXml.parse. unfold DefusedXml.strict in Hfeed.
  rewrite Hfeed. simpl. now rewrite Hclass.
Qed.

(** C9: every photo in an answer of the XML or of the YAML search is
    built from a public photo of the table, and an answer holds at most
    100 of them. *)
Theorem C9_public_and_at_most_100 (db : list Photo) :
  (forall request trace resp photos,
      XMLSearchPhotosAPIView.post db request = (trace, inr resp) ->
      body resp = JObj [("photos", JArr photos)] ->
      length photos <= 100
      /\ forall j, In j photos ->
           exists p, In p db /\ is_public p = true /\ j = photo_dict p)
  /\ (forall request trace resp photos,
        YAMLSearchPhotosAPIView.post db request = (trace, inr resp) ->
        body resp = JObj [("photos", JArr photos)] ->
        length photos <= 100
        /\ forall j, In j photos ->
             exists p, In p db /\ is_public p = true /\ j = photo_dict p).
Proof.
  assert (Hsearch : forall by_name photos,
             JObj [("photos", JArr (snd (search_by db by_name)))]
             = JObj [("photos", JArr photos)] ->
             length photos <= 100
             /\ forall j, In j photos ->
                  exists p, In p db /\ is_public p = true
                            /\ j = photo_dict p).
  { intros by_name photos E.
    destruct (search_by_sound db by_name) as (_ & Hlen & Hin).
    injection E as <-.
    split; [exact Hlen |].
    intros j Hj. destruct (Hin j Hj) as (p & H1 & H2 & _ & H4).
    exists p. auto. }
  assert (Hnone : forall photos : list json,
             JObj [("photos", JArr [])] = JObj [("photos", JArr photos)] ->
             length photos <= 100
             /\ forall j, In j photos ->
                  exists p, In p db /\ is_public p = true
                            /\ j = photo_dict p).
  { intros photos E. injection E as <-. split; [simpl; lia | intros j []]. }
  split; intros request trace resp photos Hpost Hbody.
  - pose proof (xml_post_cases db request) as H.
    destruct (XMLSearchPhotosAPIView.parse_query request _) as [e | query].
    + destruct H as [msg H]. rewrite H in Hpost.
      injection Hpost as <- <-. discriminate Hbody.
    + destruct (Py.searchable query).
      * destruct H as [q [_ H]]. rewrite H in Hpost.
        injection Hpost as <- <-. exact (Hsearch _ photos Hbody).
      * rewrite H in Hpost. injection Hpost as <- <-.
        exact (Hnone photos Hbody).
  - pose proof (yaml_post_cases db request) as H.
    destruct (YAMLSearchPhotosAPIView.parse_query request) as [e | query].
    + rewrite H in Hpost. destruct (is_AttributeError e);
        [| discriminate Hpost].
      injection Hpost as <- <-. discriminate Hbody.
    + destruct query as [| b | n | s | items | items | x | b | t | items
                         | items];
        rewrite H in Hpost;
        try (destruct (Yaml.truthy _); [discriminate Hpost |];
             injection Hpost as <- <-; exact (Hnone photos Hbody)).
      * destruct (Py.searchable (Some s)); injection Hpost as <- <-.
        -- exact (Hsearch _ photos Hbody).
        -- exact (Hnone photos Hbody).
      * destruct (bytes_searchable b); injection Hpost as <- <-.
        -- exact (Hsearch _ photos Hbody).
        -- exact (Hnone photos Hbody).
Qed.

(** C6, at the failing input: a YAML payload that [safe_load] rejects
    leaves the handler as an exception; no error message is returned
    (and no query is sent). *)
Theorem C6_yaml_rejection_escapes (db : list Photo) :
  YAMLSearchPhotosAPIView.post db
    (Yaml.Document
       (Yaml.YTagged "tag:yaml.org,2002:python/object/apply:os.system"
                     (Yaml.YSeq [Yaml.YStr "id"])))
  = ([], inl (ConstructorError
                ("could not determine a constructor for the tag "
                 ++ "'tag:yaml.org,2002:python/object/apply:os.system'")))
  /\ YAMLSearchPhotosAPIView.post db (Yaml.Malformed "mapping values are not allowed here")
     = ([], inl (YAMLError "mapping values are not allowed here")).
Proof. split; reflexivity. Qed.

(** C7, at the failing input: for the YAML payload [query: 5] the handler
    raises [AttributeError] after its [try] block, so the answer is not
    a JSON object of either shape. *)
Theorem C7_yaml_answer_not_json (db : list Photo) :
  YAMLSearchPhotosAPIView.post db
    (Yaml.Document (Yaml.YMap [(Yaml.YStr "query", Yaml.YInt 5)]))
  = ([], inl (AttributeError "'int' object has no attribute 'isspace'")).
Proof. reflexivity. Qed.


End AlbumsClaims.

Module SearchClaims.
Import Exn Json Albums AlbumsSpec.

Lemma statement_formatted (term : string) :
  percent_format SearchPhotosFormView.statement term
  = statement_prefix ++ term ++ statement_suffix.
Proof. reflexivity. Qed.

Lemma advanced_code (now : Z) (req : request) :
  code_of (photos (snd (AdvancedSearchPhotosFormView.get_context_data
                          now req)))
  = advanced_shape (Py.searchable (Py.get "name" (GET req)))
                   (Py.searchable (Py.get "description" (GET req)))
                   (known_period now (Py.get "uploaded_at" (GET req))).
Proof.
  unfold AdvancedSearchPhotosFormView.get_context_data, known_period.
  cbv zeta.
  destruct (Py.get "name" (GET req)) as [n |];
    [destruct (Py.searchable (Some n)) |];
    (destruct (Py.get "description" (GET req)) as [d |];
     [destruct (Py.searchable (Some d)) |]);
    (destruct (Py.get "uploaded_at" (GET req)) as [u |];
     [destruct (Py.searchable (Some u));
      [destruct (AdvancedSearchPhotosFormView.get_upload_period now u) |] |]);
    reflexivity.
Qed.

(** Whatever an advanced search asks for, it asks for public photos. *)
Lemma advanced_query_public (now : Z) (req : request) (q : Q) :
  photos (snd (AdvancedSearchPhotosFormView.get_context_data now req))
  = QuerySet q ->
  exists query, q = Q_and query [is_public_eq true].
Proof.
  unfold AdvancedSearchPhotosFormView.get_context_data. cbv zeta.
  match goal with
  | |- context [if Q_bool ?x then _ else _] =>
      destruct (Q_bool x); simpl; intro H;
      [inversion H; now exists x | discriminate H]
  end.
Qed.

(** C1, as amended: every term of the advanced search is bound as the
    value of an ORM lookup: the name and the description as the values
    of [icontains] lookups, the period as the cutoff of an
    [uploaded_at__gt] lookup computed from one of the known words.  The
    query holds no other lookup than these and [is_public=True], it is
    never a raw statement, its code is the same for any two requests
    that fill in the same fields, and it returns public photos only,
    whatever the terms contain.  The plain search formats its term into
    the text of a raw statement, to which no parameter is bound. *)
Theorem C1_terms_bound_or_formatted (now : Z) :
  (forall req1 req2 : request,
      Py.searchable (Py.get "name" (GET req1))
      = Py.searchable (Py.get "name" (GET req2)) ->
      Py.searchable (Py.get "description" (GET req1))
      = Py.searchable (Py.get "description" (GET req2)) ->
      Py.get "uploaded_at" (GET req1) = Py.get "uploaded_at" (GET req2) ->
      code_of (photos (snd (AdvancedSearchPhotosFormView.get_context_data
                              now req1)))
      = code_of (photos (snd (AdvancedSearchPhotosFormView.get_context_data
                                now req2))))
  /\ (forall (req : request) (term : string),
        Py.get "name" (GET req) = Some term ->
        Py.searchable (Some term) = true ->
        exists q,
          photos (snd (AdvancedSearchPhotosFormView.get_context_data
                         now req)) = QuerySet q
          /\ In (name__icontains term) q)
  /\ (forall (req : request) (term : string),
        Py.get "description" (GET req) = Some term ->
        Py.searchable (Some term) = true ->
        exists q,
          photos (snd (AdvancedSearchPhotosFormView.get_context_data
                         now req)) = QuerySet q
          /\ In (description__icontains term) q)
  /\ (forall (req : request) (word : string) (period : Z),
        Py.get "uploaded_at" (GET req) = Some word ->
        Py.searchable (Some word) = true ->
        AdvancedSearchPhotosFormView.get_upload_period now word
        = Some period ->
        exists q,
          photos (snd (AdvancedSearchPhotosFormView.get_context_data
                         now req)) = QuerySet q
          /\ In (uploaded_at__gt period) q)
  /\ (forall (req : request) (q : Q) (l : lookup),
        photos (snd (AdvancedSearchPhotosFormView.get_context_data now req))
        = QuerySet q ->
        In l q ->
        (exists term,
            Py.get "name" (GET req) = Some term
            /\ Py.searchable (Some term) = true
            /\ l = name__icontains term)
        \/ (exists term,
               Py.get "description" (GET req) = Some term
               /\ Py.searchable (Some term) = true
               /\ l = description__icontains term)
        \/ (exists word period,
               Py.get "uploaded_at" (GET req) = Some word
               /\ Py.searchable (Some word) = true
               /\ AdvancedSearchPhotosFormView.get_upload_period now word
                  = Some period
               /\ l = uploaded_at__gt period)
        \/ l = is_public_eq true)
  /\ (forall (req : request) (raw_query : string) (params : list string),
        photos (snd (AdvancedSearchPhotosFormView.get_context_data now req))
        <> RawQuerySet raw_query params)
  /\ (forall (req : request) (q : Q) (db : list Photo) (p : Photo),
        photos (snd (AdvancedSearchPhotosFormView.get_context_data now req))
        = QuerySet q ->
        In p (filter_photos db q) ->
        is_public p = true)
  /\ (forall (req : request) (term : string),
        Py.get "q" (GET req) = Some term ->
        Py.searchable (Some term) = true ->
        photos (snd (SearchPhotosFormView.get_context_data req))
        = RawQuerySet (statement_prefix ++ term ++ statement_suffix) []).
Proof.
  assert (Hbound : forall (req : request) (l : lookup),
             (   (exists term,
                     Py.get "name" (GET req) = Some term
                     /\ Py.searchable (Some term) = true
                     /\ l = name__icontains term)
              \/ (exists term,
                     Py.get "description" (GET req) = Some term
                     /\ Py.searchable (Some term) = true
                     /\ l = description__icontains term)
              \/ (exists word period,
                     Py.get "uploaded_at" (GET req) = Some word
                     /\ Py.searchable (Some word) = true
                     /\ AdvancedSearchPhotosFormView.get_upload_period
                          now word = Some period
                     /\ l = uploaded_at__gt period)) ->
             exists q,
               photos (snd (AdvancedSearchPhotosFormView.get_context_data
                              now req)) = QuerySet q
               /\ In l q).
  { intros req l H. rewrite advanced_photos. cbv zeta. cbn [snd photos].
    match goal with
    | |- context [Q_bool ?x] =>
        assert (Hin : In l x);
        [| rewrite (Q_bool_In l x Hin); eexists;
           split; [reflexivity | apply in_or_app; now left]]
    end.
    destruct H as [(term & Hget & Hs & ->)
                  | [(term & Hget & Hs & ->)
                    | (word & period & Hget & Hs & Hp & ->)]];
      rewrite Hget, Hs; try rewrite Hp.
    - apply in_or_app. left. now left.
    - apply in_or_app. right. apply in_or_app. left. now left.
    - apply in_or_app. right. apply in_or_app. right. now left. }
  split; [| split; [| split; [| split; [| split; [| split; [| split]]]]]].
  - intros req1 req2 Hn Hd Hu.
    rewrite !advanced_code. now rewrite Hn, Hd, Hu.
  - intros req term Hget Hs. apply Hbound. left. now exists term.
  - intros req term Hget Hs. apply Hbound. right. left. now exists term.
  - intros req word period Hget Hs Hp. apply Hbound. right. right.
    now exists word, period.
  - intros req q l Hq Hin.
    rewrite advanced_photos in Hq. cbv zeta in Hq. cbn [snd photos] in Hq.
    match type of Hq with
    | context [Q_bool ?x] => destruct (Q_bool x); [| discriminate Hq]
    end.
    injection Hq as <-.
    apply in_app_or in Hin. destruct Hin as [Hin | [<- | []]];
      [| now right; right; right].
    apply in_app_or in Hin. destruct Hin as [Hin | Hin].
    { left. destruct (Py.get "name" (GET req)) as [n |]; [| exact (False_ind _ Hin)].
      fold (Py.searchable (Some n)) in Hin.
      destruct (Py.searchable (Some n)) eqn:Hs; [| exact (False_ind _ Hin)].
      destruct Hin as [<- | []]. now exists n. }
    apply in_app_or in Hin. destruct Hin as [Hin | Hin].
    { right. left.
      destruct (Py.get "description" (GET req)) as [d |]; [| exact (False_ind _ Hin)].
      fold (Py.searchable (Some d)) in Hin.
      destruct (Py.searchable (Some d)) eqn:Hs; [| exact (False_ind _ Hin)].
      destruct Hin as [<- | []]. now exists d. }
    right. right. left.
    destruct (Py.get "uploaded_at" (GET req)) as [u |]; [| exact (False_ind _ Hin)].
    fold (Py.searchable (Some u)) in Hin.
    destruct (Py.searchable (Some u)) eqn:Hs; [| exact (False_ind _ Hin)].
    destruct (AdvancedSearchPhotosFormView.get_upload_period now u)
      as [period |] eqn:Hp; [| exact (False_ind _ Hin)].
    destruct Hin as [<- | []]. now exists u, period.
  - intros req raw_query params H.
    rewrite advanced_photos in H. cbv zeta in H. cbn [snd photos] in H.
    match type of H with
    | context [Q_bool ?x] => destruct (Q_bool x); discriminate H
    end.
  - intros req q db p Hq Hin.
    destruct (advanced_query_public now req q Hq) as [query ->].
    apply filter_In in Hin. destruct Hin as [_ Hm].
    unfold Q_and in Hm. rewrite forallb_app in Hm.
    apply andb_true_iff in Hm. destruct Hm as [_ Hm].
    simpl in Hm. now destruct (is_public p).
  - intros req term Hget Hs.
    unfold SearchPhotosFormView.get_context_data.
    rewrite Hget, Hs. rewrite statement_formatted.
    now destruct (user req).
Qed.

(** C10, as amended: a search whose query is empty or blank, or is
    missing from the GET parameters or from a YAML mapping, answers with
    no photos and sends no photo query; the plain search still looks up
    the home album of a signed-in user.  An XML payload that parses but
    has no [query] element is answered with an error, status 400, and
    no storage call. *)
Theorem C10_blank_query_no_photo_search (db : list Photo) :
  (forall req : request,
      Py.searchable (Py.get "q" (GET req)) = false ->
      photos (snd (SearchPhotosFormView.get_context_data req)) = NoPhotos
      /\ fst (SearchPhotosFormView.get_context_data req)
         = match user req with
           | Some u => [Album_get_or_create (userprofile_id u) u]
           | None => []
           end)
  /\ (forall (request : list DefusedXml.event) (root q : DefusedXml.element),
        snd (DefusedXml.parse request (DefusedXml.Parser true true true))
        = inr root ->
        DefusedXml.find "query" root = Some q ->
        Py.searchable (DefusedXml.text q) = false ->
        XMLSearchPhotosAPIView.post db request
        = ([], inr (JsonResponse (JObj [("photos", JArr [])]) 200%Z)))
  /\ (forall (request : Yaml.stream) (items : list (Yaml.value * Yaml.value)),
        Yaml.safe_load request = inr (Yaml.PyDict items) ->
        (Yaml.lookup "query" items = None
         \/ Yaml.lookup "query" items = Some Yaml.PyNone
         \/ exists s, Yaml.lookup "query" items = Some (Yaml.PyStr s)
                      /\ Py.searchable (Some s) = false) ->
        YAMLSearchPhotosAPIView.post db request
        = ([], inr (JsonResponse (JObj [("photos", JArr [])]) 200%Z)))
  /\ (forall (request : list DefusedXml.event) (root : DefusedXml.element),
        snd (DefusedXml.parse request (DefusedXml.Parser true true true))
        = inr root ->
        DefusedXml.find "query" root = None ->
        XMLSearchPhotosAPIView.post db request
        = ([], inr (JsonResponse
                      (JObj [("error",
                              JStr "'NoneType' object has no attribute 'text'")])
                      400%Z))).
Proof.
  split; [| split; [| split]].
  - intros req Hs. unfold SearchPhotosFormView.get_context_data.
    destruct (Py.get "q" (GET req)) as [q |]; [rewrite Hs |];
      destruct (user req); split; reflexivity.
  - intros request root q Hparse Hfind Hs.
    pose proof (xml_post_cases db request) as H.
    assert (Hpq : XMLSearchPhotosAPIView.parse_query request
                    (DefusedXml.Parser true true true)
                  = inr (DefusedXml.text q)).
    { unfold XMLSearchPhotosAPIView.parse_query.
      rewrite Hparse. unfold bind. now rewrite Hfind. }
    rewrite Hpq in H. now rewrite Hs in H.
  - intros request items Hload Hq.
    pose proof (yaml_post_cases db request) as H.
    unfold YAMLSearchPhotosAPIView.parse_query in H.
    rewrite Hload in H. unfold bind, Yaml.get, ret in H.
    destruct Hq as [Hq | [Hq | [s [Hq Hs]]]]; rewrite Hq in H.
    + exact H.
    + exact H.
    + now rewrite Hs in H.
  - intros request root Hparse Hfind.
    unfold XMLSearchPhotosAPIView.post, XMLSearchPhotosAPIView.parse_query.
    rewrite Hparse. unfold bind. rewrite Hfind. reflexivity.
Qed.

End SearchClaims.

Module SearchExamples.
Import Exn Json Albums Fixtures AlbumsClaims SearchClaims.

(** C1, as stated, fails on the plain search: the term [injection]
    becomes part of the statement text, to which nothing is bound, and
    the statement is not the one a harmless term gives. *)
Lemma C1_plain_search_formats_term :
  photos (snd (SearchPhotosFormView.get_context_data (get_q injection)))
  = RawQuerySet
      ("SELECT * FROM albums_photo WHERE name LIKE " ++ dq ++ "%x" ++ dq
       ++ " OR " ++ dq ++ "1" ++ dq ++ "=" ++ dq ++ "1%" ++ dq
       ++ " AND is_public = 1")
      []
  /\ code_of (photos (snd (SearchPhotosFormView.get_context_data
                             (get_q injection))))
     <> code_of (photos (snd (SearchPhotosFormView.get_context_data
                                (get_q "x")))).
Proof.
  split; [reflexivity |].
  intro H. vm_compute in H. discriminate H.
Qed.

Lemma C1_witness :
  code_of (photos (snd (AdvancedSearchPhotosFormView.get_context_data
                          0%Z (get_name injection))))
  = code_of (photos (snd (AdvancedSearchPhotosFormView.get_context_data
                            0%Z (get_name "x"))))
  /\ (exists q,
         photos (snd (AdvancedSearchPhotosFormView.get_context_data
                        0%Z full_search)) = QuerySet q
         /\ In (name__icontains injection) q)
  /\ (exists q,
         photos (snd (AdvancedSearchPhotosFormView.get_context_data
                        0%Z full_search)) = QuerySet q
         /\ In (description__icontains "100%") q)
  /\ (exists q,
         photos (snd (AdvancedSearchPhotosFormView.get_context_data
                        0%Z full_search)) = QuerySet q
         /\ In (uploaded_at__gt (-604800)) q)
  /\ ((exists term,
          Py.get "name" (GET last_day) = Some term
          /\ Py.searchable (Some term) = true
          /\ name__icontains "sofa" = name__icontains term)
      \/ (exists term,
             Py.get "description" (GET last_day) = Some term
             /\ Py.searchable (Some term) = true
             /\ name__icontains "sofa" = description__icontains term)
      \/ (exists word period,
             Py.get "uploaded_at" (GET last_day) = Some word
             /\ Py.searchable (Some word) = true
             /\ AdvancedSearchPhotosFormView.get_upload_period 0 word
                = Some period
             /\ name__icontains "sofa" = uploaded_at__gt period)
      \/ name__icontains "sofa" = is_public_eq true)
  /\ is_public cat = true
  /\ photos (snd (SearchPhotosFormView.get_context_data (get_q "cat")))
     = RawQuerySet (statement_prefix ++ "cat" ++ statement_suffix) [].
Proof.
  destruct (C1_terms_bound_or_formatted 0%Z)
    as (Hcode & Hname & Hdescription & Hperiod & Honly & _ & Hpub & Hraw).
  split; [| split; [| split; [| split; [| split; [| split]]]]].
  - apply (Hcode (get_name injection) (get_name "x")); reflexivity.
  - apply (Hname full_search injection); reflexivity.
  - apply (Hdescription full_search "100%"); reflexivity.
  - apply (Hperiod full_search "week" (-604800)%Z); reflexivity.
  - apply (Honly last_day
                 [name__icontains "sofa"; uploaded_at__gt (-86400);
                  is_public_eq true]
                 (name__icontains "sofa")).
    + reflexivity.
    + left. reflexivity.
  - apply (Hpub (get_name "cat")
                [name__icontains "cat"; is_public_eq true] table cat).
    + reflexivity.
    + vm_compute. left. reflexivity.
  - apply (Hraw (get_q "cat") "cat"); reflexivity.
Defined.

Lemma C4_witness :
  exists e,
    DefusedXml.parse billion (DefusedXml.Parser true true true)
    = (0, inl e)
    /\ XMLSearchPhotosAPIView.post table billion
       = ([], inr (JsonResponse
                     (JObj [("error", JStr ("XML parse - " ++ str e))])
                     400%Z)).
Proof.
  apply (C4_declaration_rejected table billion).
  reflexivity.
Defined.



Lemma C9_witness :
  (length [photo_dict cat] <= 100
   /\ forall j, In j [photo_dict cat] ->
        exists p, In p table /\ is_public p = true /\ j = photo_dict p)
  /\ (length [photo_dict cat] <= 100
      /\ forall j, In j [photo_dict cat] ->
           exists p, In p table /\ is_public p = true /\ j = photo_dict p).
Proof.
  destruct (C9_public_and_at_most_100 table) as [Hxml Hyaml].
  split.
  - apply (Hxml (xml_query "cat")
                [Photo_filter [name__icontains "cat"; is_public_eq true] 100;
                 User_get alice]
                (JsonResponse (JObj [("photos", JArr [photo_dict cat])])
                              200%Z));
      reflexivity.
  - apply (Hyaml (yaml_query (Yaml.YStr "CAT"))
                 [Photo_filter [name__icontains "CAT"; is_public_eq true] 100;
                  User_get alice]
                 (JsonResponse (JObj [("photos", JArr [photo_dict cat])])
                               200%Z));
      reflexivity.
Defined.

(** C10, as stated, fails twice: the XML search answers a payload
    without a [query] element with an error, not with an empty list; and
    the plain search of a signed-in user does call storage, for the home
    album, even without a term. *)
Lemma C10_absent_query :
  XMLSearchPhotosAPIView.post table
    [DefusedXml.StartElement "search"; DefusedXml.EndElement "search"]
  = ([], inr (JsonResponse
                (JObj [("error",
                        JStr "'NoneType' object has no attribute 'text'")])
                400%Z))
  /\ fst (SearchPhotosFormView.get_context_data (Request (Some alice) []))
     = [Album_get_or_create 7 alice].
Proof. split; reflexivity. Qed.

Lemma C10_witness :
  (photos (snd (SearchPhotosFormView.get_context_data (get_q "   ")))
   = NoPhotos
   /\ fst (SearchPhotosFormView.get_context_data (get_q "   ")) = [])
  /\ XMLSearchPhotosAPIView.post table (xml_query "   ")
     = ([], inr (JsonResponse (JObj [("photos", JArr [])]) 200%Z))
  /\ YAMLSearchPhotosAPIView.post table (Yaml.Document (Yaml.YMap []))
     = ([], inr (JsonResponse (JObj [("photos", JArr [])]) 200%Z))
  /\ XMLSearchPhotosAPIView.post table
       [DefusedXml.StartElement "search"; DefusedXml.EndElement "search"]
     = ([], inr (JsonResponse
                   (JObj [("error",
                           JStr "'NoneType' object has no attribute 'text'")])
                   400%Z)).
Proof.
  destruct (C10_blank_query_no_photo_search table)
    as (Hget & Hxml & Hyaml & Hnone).
  split; [| split; [| split]].
  - apply (Hget (get_q "   ")). reflexivity.
  - apply (Hxml (xml_query "   ")
                (DefusedXml.Element "search" None
                   [DefusedXml.Element "query" (Some "   ") []])
                (DefusedXml.Element "query" (Some "   ") []));
      reflexivity.
  - apply (Hyaml (Yaml.Document (Yaml.YMap [])) []);
      [reflexivity | left; reflexivity].
  - apply (Hnone [DefusedXml.StartElement "search";
                  DefusedXml.EndElement "search"]
                 (DefusedXml.Element "search" None []));
      reflexivity.
Defined.

End SearchExamples.

(** ** Further properties of the search views and of the domain lookup *)

Module SearchFacts.
Import Exn Json Albums AlbumsSpec.

(** The guard [query and not query.isspace()] lets a term through
    exactly when one of its characters is not white space. *)
Theorem searchable_iff_visible_char (s : string) :
  Py.searchable (Some s)
  = Py.any_char (fun c => negb (Py.is_space_char c)) s.
Proof.
  assert (H : forall t, negb (Py.all_chars Py.is_space_char t)
                        = Py.any_char (fun c => negb (Py.is_space_char c)) t).
  { induction t as [| c t IH]; simpl; [reflexivity |].
    rewrite negb_andb. now rewrite IH. }
  destruct s as [| c s]; [reflexivity |].
  unfold Py.searchable, Py.isspace, Py.truthy. now rewrite H.
Qed.

(** Under the configuration of the XML view no entity reference is ever
    expanded, whatever the payload, whether the parse ends in a tree or
    in an exception. *)
Theorem strict_parser_never_expands (request : list DefusedXml.event) :
  fst (DefusedXml.parse request (DefusedXml.Parser true true true)) = 0.
Proof.
  unfold DefusedXml.parse.
  assert (H : forall evs st,
             DefusedXml.pristine st ->
             fst (DefusedXml.feed DefusedXml.strict st evs) = 0).
  { induction evs as [| ev evs IH]; intros st Hp; simpl.
    - now destruct Hp.
    - destruct (DefusedXml.step DefusedXml.strict st ev) as [e | st'] eqn:Hs.
      + now destruct Hp.
      + apply IH. exact (DefusedXmlFacts.step_strict_pristine _ _ _ Hp Hs). }
  exact (H request DefusedXml.initial DefusedXmlFacts.pristine_initial).
Qed.


(** A YAML payload whose document is not a mapping (no document at all,
    a scalar, a list) is answered with status 400 and the message of the
    [AttributeError] for [get]; storage is not called. *)
Theorem yaml_post_not_a_mapping (db : list Photo) (request : Yaml.stream)
    (v : Yaml.value) :
  Yaml.safe_load request = inr v ->
  (forall items, v <> Yaml.PyDict items) ->
  YAMLSearchPhotosAPIView.post db request
  = ([], inr (JsonResponse
                (JObj [("error",
                        JStr ("'" ++ Yaml.type_name v
                              ++ "' object has no attribute 'get'"))])
                400%Z)).
Proof.
  intros Hload Hnot.
  unfold YAMLSearchPhotosAPIView.post, YAMLSearchPhotosAPIView.parse_query.
  rewrite Hload. unfold bind.
  destruct v as [| b | n | s | items | items | x | b | t | items | items];
    try reflexivity; try (now destruct t).
  now destruct (Hnot items).
Qed.

(** With no more than 100 matches, the ORM search of the two API views
    misses no public photo whose name contains the term. *)
Lemma search_public_complete (db : list Photo) (q : string) (p : Photo) :
  length (filter_photos db [name__icontains q; is_public_eq true]) <= 100 ->
  In p db -> is_public p = true -> Py.icontains q (name p) = true ->
  In (photo_dict p) (snd (search_public db q)).
Proof.
  intros Hlen Hin Hpub Hname. unfold search_public. cbn [snd].
  apply in_map. rewrite firstn_all2 by exact Hlen.
  apply filter_In. split; [exact Hin |].
  cbn [forallb matches]. now rewrite Hname, Hpub.
Qed.

(** When no more than 100 public photos match a term that is not blank,
    the XML and the YAML search return every public photo of the table
    whose name contains the term, in whatever letter case. *)
Theorem search_finds_public_matches (db : list Photo) (q : string)
    (p : Photo) :
  Py.searchable (Some q) = true ->
  length (filter_photos db [name__icontains q; is_public_eq true]) <= 100 ->
  In p db -> is_public p = true -> Py.icontains q (name p) = true ->
  (forall request,
      XMLSearchPhotosAPIView.parse_query request
        (DefusedXml.Parser true true true) = inr (Some q) ->
      exists trace photos,
        XMLSearchPhotosAPIView.post db request
        = (trace, inr (JsonResponse (JObj [("photos", JArr photos)]) 200%Z))
        /\ In (photo_dict p) photos)
  /\ (forall request,
        YAMLSearchPhotosAPIView.parse_query request = inr (Yaml.PyStr q) ->
        exists trace photos,
          YAMLSearchPhotosAPIView.post db request
          = (trace, inr (JsonResponse (JObj [("photos", JArr photos)]) 200%Z))
          /\ In (photo_dict p) photos).
Proof.
  intros Hs Hlen Hin Hpub Hname.
  pose proof (search_public_complete db q p Hlen Hin Hpub Hname) as Hfound.
  split; intros request Hparse.
  - pose proof (xml_post_cases db request) as H.
    rewrite Hparse, Hs in H. destruct H as [q' [Hq ->]].
    inversion Hq; subst q'. do 2 eexists. split; [reflexivity | exact Hfound].
  - pose proof (yaml_post_cases db request) as H.
    rewrite Hparse, Hs in H. rewrite H.
    do 2 eexists. split; [reflexivity | exact Hfound].
Qed.

(** A known period gives a cutoff in the past, at most thirty days
    back. *)
Lemma upload_period_bounds (now cutoff : Z) (word : string) :
  AdvancedSearchPhotosFormView.get_upload_period now word = Some cutoff ->
  (now - 30 * 86400 <= cutoff < now)%Z.
Proof.
  unfold AdvancedSearchPhotosFormView.get_upload_period.
  destruct (String.eqb word "hours"); [intro H; inversion H; lia |].
  destruct (String.eqb word "week"); [intro H; inversion H; lia |].
  destruct (String.eqb word "month"); [intro H; inversion H; lia |].
  discriminate.
Qed.

(** Every photo an advanced search denotes meets each criterion that was
    filled in: its name contains the name term, its description contains
    the description term, and it was uploaded after the cutoff of the
    period, which lies in the last thirty days. *)
Theorem advanced_search_meets_criteria (now : Z) (req : request) (q : Q)
    (db : list Photo) (p : Photo) :
  photos (snd (AdvancedSearchPhotosFormView.get_context_data now req))
  = QuerySet q ->
  In p (filter_photos db q) ->
  (forall term, Py.get "name" (GET req) = Some term ->
                Py.searchable (Some term) = true ->
                Py.icontains term (name p) = true)
  /\ (forall term, Py.get "description" (GET req) = Some term ->
                   Py.searchable (Some term) = true ->
                   Py.icontains term (description p) = true)
  /\ (forall word cutoff,
        Py.get "uploaded_at" (GET req) = Some word ->
        Py.searchable (Some word) = true ->
        AdvancedSearchPhotosFormView.get_upload_period now word
        = Some cutoff ->
        (cutoff < uploaded_at p /\ now - 30 * 86400 <= cutoff < now)%Z).
Proof.
  intros Hq Hin.
  rewrite advanced_photos in Hq. cbv zeta in Hq. cbn [snd photos] in Hq.
  apply filter_In in Hin. destruct Hin as [_ Hm].
  match type of Hq with
  | (if Q_bool ?x then _ else _) = _ =>
      destruct (Q_bool x); [| discriminate Hq]
  end.
  inversion Hq as [Hq']. clear Hq. rewrite <- Hq' in Hm. clear Hq'.
  rewrite !forallb_app in Hm.
  apply andb_true_iff in Hm. destruct Hm as [Hm _].
  apply andb_true_iff in Hm. destruct Hm as [Hn Hm].
  apply andb_true_iff in Hm. destruct Hm as [Hd Hu].
  split; [| split].
  - intros term Hget Hs. unfold Py.searchable in Hs.
    rewrite Hget, Hs in Hn. simpl in Hn. now rewrite andb_true_r in Hn.
  - intros term Hget Hs. unfold Py.searchable in Hs.
    rewrite Hget, Hs in Hd. simpl in Hd. now rewrite andb_true_r in Hd.
  - intros word cutoff Hget Hs Hp. unfold Py.searchable in Hs.
    rewrite Hget, Hs, Hp in Hu. simpl in Hu.
    rewrite andb_true_r in Hu. apply Z.ltb_lt in Hu.
    split; [exact Hu | exact (upload_period_bounds now cutoff word Hp)].
Qed.

(** An advanced search asks storage for nothing exactly when no name and
    no description term is filled in and the period is missing, blank or
    not one of the three known words; and the view itself never calls
    storage. *)
Theorem advanced_search_blank (now : Z) (req : request) :
  fst (AdvancedSearchPhotosFormView.get_context_data now req) = []
  /\ (photos (snd (AdvancedSearchPhotosFormView.get_context_data now req))
      = NoPhotos
      <-> Py.searchable (Py.get "name" (GET req)) = false
          /\ Py.searchable (Py.get "description" (GET req)) = false
          /\ known_period now (Py.get "uploaded_at" (GET req)) = false).
Proof.
  rewrite advanced_photos. cbv zeta. cbn [fst snd photos].
  split; [reflexivity |].
  unfold known_period.
  destruct (Py.get "name" (GET req)) as [n |];
    [destruct (Py.searchable (Some n)) |];
    (destruct (Py.get "description" (GET req)) as [d |];
     [destruct (Py.searchable (Some d)) |]);
    (destruct (Py.get "uploaded_at" (GET req)) as [u |];
     [destruct (Py.searchable (Some u));
      [destruct (AdvancedSearchPhotosFormView.get_upload_period now u) |] |]);
    simpl; split; intro H;
    try discriminate H; try reflexivity;
    try (destruct H as (H1 & H2 & H3); discriminate);
    repeat split.
Qed.

End SearchFacts.

Module LookupFacts.
Import NameServer.

Section Handlers.

Variable clean_domain_url : option string -> option string.
Variable popen3_stdout : string -> string.
Variable Popen_communicate : list string -> string * Z.


End Handlers.

End LookupFacts.

(** ** The album and photo pages *)

Module GalleryFacts.
Import Gallery GalleryFixtures.

(** *** Queries *)

Lemma get_inr {A : Type} (cond : A -> bool) (rows : list A) (row : A) :
  get cond rows = inr row -> filter cond rows = [row].
Proof.
  unfold get. destruct (filter cond rows) as [| r [| r' l]];
    intro H; inversion H; reflexivity.
Qed.

Lemma get_object_or_404_inr {A : Type} (cond : A -> bool) (rows : list A)
    (row : A) :
  get_object_or_404 cond rows = inr row -> filter cond rows = [row].
Proof.
  unfold get_object_or_404. destruct (get cond rows) as [e | r] eqn:Hg.
  - destruct e; discriminate.
  - intro H. inversion H; subst. exact (get_inr _ _ _ Hg).
Qed.

Lemma filter_one_In {A : Type} (cond : A -> bool) (rows : list A) (row : A) :
  filter cond rows = [row] -> In row rows /\ cond row = true.
Proof.
  intro H. apply filter_In. rewrite H. now left.
Qed.

Lemma get_object_or_404_inl {A : Type} (cond : A -> bool) (rows : list A)
    (e : failure) :
  get_object_or_404 cond rows = inl e ->
  (e = Http404 /\ filter cond rows = [])
  \/ (e = MultipleObjectsReturned /\ 2 <= length (filter cond rows)).
Proof.
  unfold get_object_or_404, get.
  destruct (filter cond rows) as [| r [| r' l]]; intro H; inversion H.
  - now left.
  - right. split; [reflexivity | simpl; lia].
Qed.

(** Rows of a table with unique keys are told apart by their key. *)
Lemma unique_key {A : Type} (key : A -> Z) (rows : list A) (a b : A) :
  NoDup (map key rows) -> In a rows -> In b rows -> key a = key b -> a = b.
Proof.
  induction rows as [| r rows IH]; simpl; intros Hnd Ha Hb Hk; [easy |].
  inversion Hnd as [| ? ? Hnot Hnd']; subst.
  destruct Ha as [-> | Ha], Hb as [-> | Hb].
  - reflexivity.
  - exfalso. apply Hnot. rewrite Hk. now apply in_map.
  - exfalso. apply Hnot. rewrite <- Hk. now apply in_map.
  - now apply IH.
Qed.

Lemma next_pk_above (pks : list Z) (k : Z) :
  In k pks -> (k < next_pk pks)%Z.
Proof.
  intro H. unfold next_pk.
  assert (Hle : (k <= fold_right Z.max 0 pks)%Z).
  { induction pks as [| x pks IH]; [destruct H |].
    cbn [fold_right]. destruct H as [-> | H].
    - apply Z.le_max_l.
    - etransitivity; [exact (IH H) | apply Z.le_max_r]. }
  lia.
Qed.

(** The key given to a new row is not in use. *)
Lemma next_pk_fresh (pks : list Z) : ~ In (next_pk pks) pks.
Proof.
  intro H. apply next_pk_above in H. lia.
Qed.

Lemma NoDup_snoc (pks : list Z) (k : Z) :
  NoDup pks -> ~ In k pks -> NoDup (pks ++ [k]).
Proof.
  intros Hnd Hk. apply NoDup_app; [exact Hnd | repeat constructor; easy |].
  intros x Hx [<- | []]. contradiction.
Qed.

(** *** Ordering *)

Lemma insert_desc_perm {A : Type} (key : A -> Z) (x : A) (l : list A) :
  Permutation (x :: l) (insert_desc key x l).
Proof.
  induction l as [| y l IH]; simpl; [reflexivity |].
  destruct (key y <=? key x)%Z; [reflexivity |].
  rewrite perm_swap. now constructor.
Qed.

Lemma order_by_desc_perm {A : Type} (key : A -> Z) (l : list A) :
  Permutation l (order_by_desc key l).
Proof.
  induction l as [| x l IH]; simpl; [constructor |].
  rewrite <- insert_desc_perm. now constructor.
Qed.

Lemma insert_desc_sorted {A : Type} (key : A -> Z) (x : A) (l : list A) :
  Sorted (descending key) l -> Sorted (descending key) (insert_desc key x l).
Proof.
  induction l as [| y l IH]; simpl; intro Hs.
  - repeat constructor.
  - destruct (Z.leb_spec (key y) (key x)) as [Hle | Hgt].
    + constructor; [exact Hs | constructor; exact Hle].
    + inversion Hs as [| ? ? Hs' Hhd]; subst.
      constructor; [now apply IH |].
      destruct l as [| z l]; simpl.
      * constructor. unfold descending. lia.
      * destruct (key z <=? key x)%Z; constructor.
        -- unfold descending. lia.
        -- now inversion Hhd.
Qed.

Lemma order_by_desc_sorted {A : Type} (key : A -> Z) (l : list A) :
  Sorted (descending key) (order_by_desc key l).
Proof.
  induction l as [| x l IH]; simpl; [constructor |].
  now apply insert_desc_sorted.
Qed.

End GalleryFacts.

Module PhotoPages.
Import Gallery GalleryFixtures GalleryFacts.

Lemma is_other_false (user : option UserRow) (owner : UserRow) :
  is_other user owner = false ->
  exists u, user = Some u /\ u_pk u = u_pk owner.
Proof.
  destruct user as [u |]; simpl; [| discriminate].
  intro H. apply negb_false_iff in H. apply Z.eqb_eq in H. now exists u.
Qed.

(** What the three lookups of the photo page find. *)
Lemma photo_page_lookups (user : option UserRow) (username : string)
    (pk : Z) (db db' : database) (photo : PhotoRow) :
  PhotoTemplateView.get_context_data user username pk db = (db', inr photo) ->
  exists owner original,
    filter (fun u => String.eqb (u_username u) username) (users db) = [owner]
    /\ In original (photos db)
    /\ p_pk original = pk
    /\ p_owner original = u_pk owner
    /\ (if is_other user owner
        then p_is_public original = true
             /\ PhotoTemplateView.set_views original db = (db', inr photo)
        else photo = original /\ db' = db).
Proof.
  unfold PhotoTemplateView.get_context_data, bindM, query, pure.
  destruct (get_object_or_404 _ (users db)) as [e | owner] eqn:Ho;
    [discriminate |].
  destruct (get_object_or_404 _ (photos db)) as [e | found] eqn:Hp;
    [discriminate |].
  apply get_object_or_404_inr in Ho.
  apply get_object_or_404_inr, filter_one_In in Hp.
  destruct Hp as [Hin Hc]. apply andb_true_iff in Hc.
  destruct Hc as [Hpk Hown]. apply Z.eqb_eq in Hpk, Hown.
  destruct (is_other user owner) eqn:Hoth.
  - destruct (get_object_or_404 _ (photos db)) as [e | shown] eqn:Hp2;
      [discriminate |].
    apply get_object_or_404_inr, filter_one_In in Hp2.
    destruct Hp2 as [Hin2 Hc2].
    apply andb_true_iff in Hc2. destruct Hc2 as [Hc2 Hpub].
    apply andb_true_iff in Hc2. destruct Hc2 as [Hpk2 Hown2].
    apply Z.eqb_eq in Hpk2, Hown2. apply Bool.eqb_prop in Hpub.
    intro H. exists owner, shown. rewrite Hoth. repeat split; auto.
  - intro H. inversion H; subst db' found. exists owner, photo.
    rewrite Hoth. repeat split; auto.
Qed.

(** The photo page writes nothing, or overwrites rows of the photo table
    with a row of the same key. *)
Lemma photo_page_writes (user : option UserRow) (username : string)
    (pk : Z) (db db' : database) (r : result PhotoRow) :
  PhotoTemplateView.get_context_data user username pk db = (db', r) ->
  db' = db
  \/ exists update : PhotoRow -> PhotoRow,
       (forall p, p_pk (update p) = p_pk p)
       /\ db' = Database (users db) (albums db) (map update (photos db)).
Proof.
  unfold PhotoTemplateView.get_context_data, bindM, query, pure.
  destruct (get_object_or_404 _ (users db)) as [e1 | owner];
    [intro H; inversion H; now left |].
  destruct (get_object_or_404 _ (photos db)) as [e2 | found] eqn:Hp;
    [intro H; inversion H; now left |].
  clear Hp. destruct (is_other user owner); [| intro H; inversion H; now left].
  destruct (get_object_or_404 _ (photos db)) as [e3 | shown] eqn:Hp2;
    [intro H; inversion H; now left |].
  apply get_object_or_404_inr, filter_one_In in Hp2. destruct Hp2 as [Hin _].
  unfold PhotoTemplateView.set_views, bindM, save_photo, pure.
  cbn [p_pk].
  assert (Hex : existsb (fun p => (p_pk p =? p_pk shown)%Z) (photos db)
                = true).
  { apply existsb_exists. exists shown. split; [exact Hin |].
    apply Z.eqb_refl. }
  rewrite Hex. intro H. inversion H; subst. right.
  eexists (fun p => if (p_pk p =? p_pk shown)%Z then _ else p).
  split; [| reflexivity].
  intro p. destruct (Z.eqb_spec (p_pk p) (p_pk shown)) as [E | _];
    [now rewrite E | reflexivity].
Qed.

(** The photo page shows a photo of the named user under the asked key,
    and shows a photo that is not public to nobody but its owner. *)
Theorem photo_page_privacy (user : option UserRow) (username : string)
    (pk : Z) (db db' : database) (photo : PhotoRow) :
  PhotoTemplateView.get_context_data user username pk db = (db', inr photo) ->
  p_pk photo = pk
  /\ exists owner,
       In owner (users db)
       /\ u_username owner = username
       /\ p_owner photo = u_pk owner
       /\ (p_is_public photo = false ->
           exists u, user = Some u /\ u_pk u = u_pk owner).
Proof.
  intro H.
  destruct (photo_page_lookups _ _ _ _ _ _ H)
    as (owner & original & Ho & Hin & Hpk & Hown & Hcase).
  apply filter_one_In in Ho. destruct Ho as [Hoin Hname].
  apply String.eqb_eq in Hname.
  destruct (is_other user owner) eqn:Hoth.
  - destruct Hcase as [Hpub Hset].
    unfold PhotoTemplateView.set_views, bindM, save_photo, pure in Hset.
    inversion Hset; subst photo. simpl.
    split; [exact Hpk |]. exists owner. repeat split; auto.
    intro Hf. rewrite Hpub in Hf. discriminate Hf.
  - destruct Hcase as [-> ->].
    split; [exact Hpk |]. exists owner. repeat split; auto.
    intros _. exact (is_other_false _ _ Hoth).
Qed.

(** A visit by anyone but the owner adds one to the view count of the
    photo shown and changes no other row; a visit by the owner changes
    nothing.  The keys of the photo table are taken to be unique. *)
Theorem photo_page_counts_one_view (user : option UserRow)
    (username : string) (pk : Z) (db db' : database) (photo : PhotoRow) :
  NoDup (map p_pk (photos db)) ->
  PhotoTemplateView.get_context_data user username pk db = (db', inr photo) ->
  exists owner original,
    In owner (users db) /\ u_username owner = username
    /\ In original (photos db) /\ p_pk original = pk
    /\ if is_other user owner then
         photo = viewed original
         /\ db' = Database (users db) (albums db)
                    (map (fun p => if (p_pk p =? pk)%Z then viewed p else p)
                         (photos db))
       else photo = original /\ db' = db.
Proof.
  intros Hnd H.
  destruct (photo_page_lookups _ _ _ _ _ _ H)
    as (owner & original & Ho & Hin & Hpk & Hown & Hcase).
  apply filter_one_In in Ho. destruct Ho as [Hoin Hname].
  apply String.eqb_eq in Hname.
  exists owner, original. repeat split; auto.
  destruct (is_other user owner); [| exact Hcase].
  destruct Hcase as [_ Hset].
  unfold PhotoTemplateView.set_views, bindM, save_photo, pure in Hset.
  cbn [p_pk] in Hset.
  assert (Hex : existsb (fun p => (p_pk p =? p_pk original)%Z) (photos db)
                = true).
  { apply existsb_exists. exists original. split; [exact Hin |].
    apply Z.eqb_refl. }
  rewrite Hex in Hset. inversion Hset; subst photo db'. clear Hset.
  split; [reflexivity |]. f_equal.
  apply map_ext_in. intros p Hp. subst pk.
  destruct (Z.eqb_spec (p_pk p) (p_pk original)) as [E | _]; [| reflexivity].
  now rewrite (unique_key p_pk (photos db) p original Hnd Hp Hin E).
Qed.

(** A request the photo page refuses leaves the tables as they were. *)
Theorem photo_page_refusal (user : option UserRow) (username : string)
    (pk : Z) (db db' : database) (e : failure) :
  PhotoTemplateView.get_context_data user username pk db = (db', inl e) ->
  db' = db /\ (e = Http404 \/ e = MultipleObjectsReturned).
Proof.
  unfold PhotoTemplateView.get_context_data, bindM, query, pure.
  destruct (get_object_or_404 _ (users db)) as [e1 | owner] eqn:Ho.
  { intro H. inversion H; subst.
    apply get_object_or_404_inl in Ho. split; [reflexivity | tauto]. }
  destruct (get_object_or_404 _ (photos db)) as [e2 | found] eqn:Hp.
  { intro H. inversion H; subst.
    apply get_object_or_404_inl in Hp. split; [reflexivity | tauto]. }
  clear Hp. destruct (is_other user owner); [| discriminate].
  destruct (get_object_or_404 _ (photos db)) as [e3 | shown] eqn:Hp2.
  - intro H. inversion H; subst.
    apply get_object_or_404_inl in Hp2. split; [reflexivity | tauto].
  - unfold PhotoTemplateView.set_views, bindM, save_photo, pure.
    discriminate.
Qed.

(** The page of a user's photos lists, for its owner, all of the owner's
    photos, and for anyone else the public ones among them; a name that
    no user has is answered with 404. *)
Theorem user_photos_visibility (user : option UserRow) (username : string)
    (db : database) :
  (forall ctx,
      UserPhotosTemplateView.get_context_data user username db = inr ctx ->
      let owner := UserPhotosTemplateView.context_owner ctx in
      In owner (users db)
      /\ u_username owner = username
      /\ forall p,
           In p (UserPhotosTemplateView.context_photos ctx)
           <-> In p (photos db)
               /\ p_owner p = u_pk owner
               /\ (is_other user owner = true -> p_is_public p = true))
  /\ ((forall u, In u (users db) -> u_username u <> username) ->
      UserPhotosTemplateView.get_context_data user username db
      = inl Http404).
Proof.
  unfold UserPhotosTemplateView.get_context_data. split.
  - intros ctx.
    destruct (get_object_or_404 _ (users db)) as [e | owner] eqn:Ho;
      [discriminate |].
    apply get_object_or_404_inr, filter_one_In in Ho.
    destruct Ho as [Hoin Hname]. apply String.eqb_eq in Hname.
    intro H. inversion H; subst ctx. clear H. simpl.
    split; [exact Hoin | split; [exact Hname |]]. intro p. split.
    + destruct (is_other user owner).
      * intro Hp. apply filter_In in Hp. destruct Hp as [Hp Hpub].
        apply filter_In in Hp. destruct Hp as [Hp Hown].
        apply Z.eqb_eq in Hown. apply Bool.eqb_prop in Hpub. auto.
      * intro Hp. apply filter_In in Hp. destruct Hp as [Hp Hown].
        apply Z.eqb_eq in Hown. repeat split; auto. discriminate.
    + intros (Hp & Hown & Hpub). apply Z.eqb_eq in Hown.
      destruct (is_other user owner).
      * apply filter_In. split; [now apply filter_In |].
        rewrite (Hpub eq_refl). reflexivity.
      * now apply filter_In.
  - intro Hnone.
    assert (Hf : filter (fun u => String.eqb (u_username u) username)
                        (users db) = []).
    { induction (users db) as [| u l IH]; [reflexivity |]. simpl.
      destruct (String.eqb_spec (u_username u) username) as [E | _].
      - destruct (Hnone u (or_introl eq_refl) E).
      - apply IH. intros v Hv. apply Hnone. now right. }
    unfold get_object_or_404, get. now rewrite Hf.
Qed.

End PhotoPages.

Module LinkPages.
Import Gallery GalleryFixtures GalleryFacts.

Lemma filter_none {A : Type} (cond : A -> bool) (rows : list A) :
  (forall r, In r rows -> cond r = false) -> filter cond rows = [].
Proof.
  induction rows as [| r rows IH]; intro H; [reflexivity |]. simpl.
  rewrite (H r (or_introl eq_refl)). apply IH.
  intros x Hx. apply H. now right.
Qed.

(** The public link serves the thumbnail of a public photo only, as
    plain text in a sandbox; for a key under which no public photo is
    stored the answer is 404. *)
Theorem public_link_public_only (files : string -> option string) (pk : Z)
    (db : database) :
  (forall response,
      PublicPhotoLinkView.get files pk db = inr response ->
      headers response
      = [("content-type", "text/plain");
         ("content-security-policy", "sandbox")]
      /\ exists photo,
           In photo (photos db) /\ p_pk photo = pk
           /\ p_is_public photo = true
           /\ files (p_upload_thumbnail_path photo)
              = Some (content response))
  /\ ((forall p, In p (photos db) -> p_pk p = pk -> p_is_public p = false) ->
      PublicPhotoLinkView.get files pk db = inl Http404).
Proof.
  unfold PublicPhotoLinkView.get, PublicPhotoLinkView.get_object. split.
  - intro response.
    destruct (get_object_or_404 _ (photos db)) as [e | photo] eqn:Hp;
      [discriminate |].
    apply get_object_or_404_inr, filter_one_In in Hp.
    destruct Hp as [Hin Hc]. apply andb_true_iff in Hc.
    destruct Hc as [Hpk Hpub]. apply Z.eqb_eq in Hpk.
    apply Bool.eqb_prop in Hpub.
    unfold open_file.
    destruct (files (p_upload_thumbnail_path photo)) as [bytes |] eqn:Hf;
      [| discriminate].
    intro H. inversion H; subst response. clear H.
    split; [reflexivity |]. exists photo. auto.
  - intro Hnone.
    unfold get_object_or_404, get. rewrite filter_none; [reflexivity |].
    intros p Hp. destruct (Z.eqb_spec (p_pk p) pk) as [E | _];
      [| reflexivity].
    now rewrite (Hnone p Hp E).
Qed.

End LinkPages.

Module OwnerPages.
Import Gallery GalleryFixtures GalleryFacts LinkPages.

(** The private link serves the thumbnail of a photo of the user who
    asks and of nobody else: a key under which that user has no photo is
    answered with 404. *)
Theorem photo_link_own_only (files : string -> option string)
    (user : UserRow) (pk : Z) (db : database) :
  (forall response,
      PhotoLinkView.get files user pk db = inr response ->
      headers response = [("content-type", "text/plain")]
      /\ exists photo,
           In photo (photos db) /\ p_pk photo = pk
           /\ p_owner photo = u_pk user
           /\ files (p_upload_thumbnail_path photo)
              = Some (content response))
  /\ ((forall p, In p (photos db) -> p_pk p = pk -> p_owner p <> u_pk user) ->
      PhotoLinkView.get files user pk db = inl Http404).
Proof.
  unfold PhotoLinkView.get, PhotoLinkView.get_object. split.
  - intro response.
    destruct (get_object_or_404 _ (photos db)) as [e | photo] eqn:Hp;
      [discriminate |].
    apply get_object_or_404_inr, filter_one_In in Hp.
    destruct Hp as [Hin Hc]. apply andb_true_iff in Hc.
    destruct Hc as [Hpk Hown]. apply Z.eqb_eq in Hpk, Hown.
    unfold open_file.
    destruct (files (p_upload_thumbnail_path photo)) as [bytes |] eqn:Hf;
      [| discriminate].
    intro H. inversion H; subst response. clear H.
    split; [reflexivity |]. exists photo. auto.
  - intro Hnone.
    unfold get_object_or_404, get. rewrite filter_none; [reflexivity |].
    intros p Hp. destruct (Z.eqb_spec (p_pk p) pk) as [E | _];
      [| reflexivity].
    simpl. apply Z.eqb_neq. exact (Hnone p Hp E).
Qed.

(** The album page is answered for an album of the user who asks, with
    that user's photos in the album, newest first, and reads the tables
    only; the name of an album that the user does not own is answered
    with 404. *)
Theorem album_page_own_album (user : UserRow) (album : string)
    (db : database) :
  fst (AlbumTemplateView.get_context_data user album db) = db
  /\ (forall ctx,
         snd (AlbumTemplateView.get_context_data user album db) = inr ctx ->
         let current := AlbumTemplateView.current_album ctx in
         In current (albums db)
         /\ a_name current = album
         /\ a_owner current = u_pk user
         /\ Sorted (descending p_uploaded_at)
                   (AlbumTemplateView.context_photos ctx)
         /\ forall p,
              In p (AlbumTemplateView.context_photos ctx)
              <-> In p (photos db) /\ p_owner p = u_pk user
                  /\ p_album p = a_pk current)
  /\ ((forall a, In a (albums db) -> a_name a = album ->
                 a_owner a <> u_pk user) ->
      snd (AlbumTemplateView.get_context_data user album db) = inl Http404).
Proof.
  unfold AlbumTemplateView.get_context_data, query. cbn [fst snd].
  split; [reflexivity | split].
  - intro ctx.
    destruct (get_object_or_404 _ (albums db)) as [e | current] eqn:Ha;
      [discriminate |].
    apply get_object_or_404_inr, filter_one_In in Ha.
    destruct Ha as [Hin Hc]. apply andb_true_iff in Hc.
    destruct Hc as [Hname Hown].
    apply String.eqb_eq in Hname. apply Z.eqb_eq in Hown.
    intro H. inversion H; subst ctx. clear H. simpl.
    split; [exact Hin | split; [exact Hname | split; [exact Hown |]]].
    split; [apply order_by_desc_sorted |].
    intro p. split.
    + intro Hp.
      apply (Permutation_in _ (Permutation_sym
                                 (order_by_desc_perm p_uploaded_at _))) in Hp.
      apply filter_In in Hp. destruct Hp as [Hp Hc].
      apply andb_true_iff in Hc. destruct Hc as [H1 H2].
      apply Z.eqb_eq in H1, H2. auto.
    + intros (Hp & H1 & H2).
      apply (Permutation_in _ (order_by_desc_perm p_uploaded_at _)).
      apply filter_In. split; [exact Hp |].
      apply andb_true_iff. split; now apply Z.eqb_eq.
  - intro Hnone.
    unfold get_object_or_404, get. rewrite filter_none; [reflexivity |].
    intros a Ha. destruct (String.eqb_spec (a_name a) album) as [E | _];
      [| reflexivity].
    simpl. apply Z.eqb_neq. exact (Hnone a Ha E).
Qed.

End OwnerPages.

Module HomePages.
Import Gallery GalleryFixtures GalleryFacts LinkPages.

Lemma get_inl_DoesNotExist {A : Type} (cond : A -> bool) (rows : list A) :
  get cond rows = inl DoesNotExist -> filter cond rows = [].
Proof.
  unfold get. destruct (filter cond rows) as [| r [| r' l]];
    [reflexivity | discriminate | discriminate].
Qed.

(** [get_or_create] returns the one album with the name and the owner,
    having added it under a new key if there was none. *)
Lemma get_or_create_album_spec (name : string) (owner : Z)
    (db db' : database) (home : AlbumRow) (created : bool) :
  get_or_create_album name owner db = (db', inr (home, created)) ->
  a_name home = name /\ a_owner home = owner
  /\ users db' = users db /\ photos db' = photos db
  /\ filter (fun a => String.eqb (a_name a) name && (a_owner a =? owner)%Z)
            (albums db') = [home]
  /\ if created then
       filter (fun a => String.eqb (a_name a) name && (a_owner a =? owner)%Z)
              (albums db) = []
       /\ albums db' = (albums db ++ [home])%list
       /\ a_pk home = next_pk (map a_pk (albums db))
     else db' = db.
Proof.
  unfold get_or_create_album.
  destruct (get _ (albums db)) as [e | album] eqn:Hg.
  - destruct e; try discriminate.
    apply get_inl_DoesNotExist in Hg.
    intro H. inversion H; subst. clear H. simpl.
    repeat split; auto.
    rewrite filter_app, Hg. simpl.
    now rewrite String.eqb_refl, Z.eqb_refl.
  - intro H. inversion H; subst. clear H.
    pose proof (get_inr _ _ _ Hg) as Hf.
    destruct (filter_one_In _ _ _ Hf) as [_ Hc].
    apply andb_true_iff in Hc. destruct Hc as [Hn Ho].
    apply String.eqb_eq in Hn. apply Z.eqb_eq in Ho.
    repeat split; auto.
Qed.

(** The home page of a visitor who is not signed in reads and writes
    nothing.  For a signed-in user it shows the user's home album, named
    after the profile and created if it was missing, the user's other
    albums, and the user's photos of the home album, newest first; the
    user and photo tables stay as they were. *)
Theorem home_page_contents (db : database) :
  HomeTemplateView.get_context_data None db
  = (db, inr (HomeTemplateView.Context None [] []))
  /\ forall (u : UserRow) (db' : database) (ctx : HomeTemplateView.context),
       HomeTemplateView.get_context_data (Some u) db = (db', inr ctx) ->
       exists home,
         HomeTemplateView.current_album ctx = Some home
         /\ In home (albums db')
         /\ a_name home = str (u_userprofile_id u)
         /\ a_owner home = u_pk u
         /\ users db' = users db /\ photos db' = photos db
         /\ (albums db' = albums db
             \/ (albums db' = (albums db ++ [home])%list
                 /\ ~ In (a_pk home) (map a_pk (albums db))))
         /\ (forall a,
                In a (HomeTemplateView.context_albums ctx)
                <-> In a (albums db') /\ a_owner a = u_pk u
                    /\ a_name a <> a_name home)
         /\ Sorted (descending p_uploaded_at)
                   (HomeTemplateView.context_photos ctx)
         /\ (forall p,
                In p (HomeTemplateView.context_photos ctx)
                <-> In p (photos db) /\ p_owner p = u_pk u
                    /\ p_album p = a_pk home).
Proof.
  split; [reflexivity |].
  intros u db' ctx.
  unfold HomeTemplateView.get_context_data, bindM, query.
  destruct (get_or_create_album _ _ db) as [db1 [e | [home created]]] eqn:Hg;
    [discriminate |].
  intro H. inversion H; subst db1 ctx. clear H.
  destruct (get_or_create_album_spec _ _ _ _ _ _ Hg)
    as (Hname & Hown & Hu & Hp & Hf & Hc).
  exists home. cbn [HomeTemplateView.current_album
                      HomeTemplateView.context_albums
                      HomeTemplateView.context_photos fst].
  split; [reflexivity |].
  split; [exact (proj1 (filter_one_In _ _ _ Hf)) |].
  split; [exact Hname | split; [exact Hown |]].
  split; [exact Hu | split; [exact Hp |]].
  split.
  { destruct created.
    - destruct Hc as (_ & Happ & Hpk). right. split; [exact Happ |].
      rewrite Hpk. apply next_pk_fresh.
    - left. now rewrite Hc. }
  split.
  { intro a. rewrite !filter_In. rewrite negb_true_iff, Z.eqb_eq.
    split.
    - intros [[Ha Ho] Hn]. repeat split; auto.
      intro E. rewrite E, String.eqb_refl in Hn. discriminate Hn.
    - intros (Ha & Ho & Hn). repeat split; auto.
      now apply String.eqb_neq. }
  split; [apply order_by_desc_sorted |].
  intro p. rewrite Hp. split.
  - intro Hin.
    apply (Permutation_in _ (Permutation_sym
                               (order_by_desc_perm p_uploaded_at _))) in Hin.
    apply filter_In in Hin. destruct Hin as [Hin Hcond].
    apply andb_true_iff in Hcond. destruct Hcond as [H1 H2].
    apply Z.eqb_eq in H1, H2. auto.
  - intros (Hin & H1 & H2).
    apply (Permutation_in _ (order_by_desc_perm p_uploaded_at _)).
    apply filter_In. split; [exact Hin |].
    apply andb_true_iff. split; now apply Z.eqb_eq.
Qed.

(** The home page creates the home album once: asked again on the
    tables it left, it answers the same and writes nothing. *)
Theorem home_page_idempotent (u : UserRow) (db db' : database)
    (ctx : HomeTemplateView.context) :
  HomeTemplateView.get_context_data (Some u) db = (db', inr ctx) ->
  HomeTemplateView.get_context_data (Some u) db' = (db', inr ctx).
Proof.
  unfold HomeTemplateView.get_context_data, bindM, query.
  destruct (get_or_create_album _ _ db) as [db1 [e | [home created]]] eqn:Hg;
    [discriminate |].
  intro H. inversion H; subst db1. clear H.
  destruct (get_or_create_album_spec _ _ _ _ _ _ Hg)
    as (_ & _ & _ & _ & Hf & _).
  unfold get_or_create_album, get. rewrite Hf. reflexivity.
Qed.

End HomePages.

Module WritePages.
Import Gallery GalleryFixtures GalleryFacts LinkPages HomePages.

(** An upload stores exactly one new photo, under a key not in use,
    owned by the user who uploads and placed in that user's album of the
    name in the URL; the photo is named after the uploaded file when the
    form carries no name.  An upload that fails stores nothing, and it
    fails with [DoesNotExist] when the user owns no album of that
    name. *)
Theorem upload_into_own_album (user : UserRow) (album : string)
    (photo : PhotoRow) (form_name : option string) (db : database) :
  (forall db' target,
      UploadPhotoFormView.form_valid user album photo form_name db
      = (db', inr target) ->
      target = UploadPhotoFormView.get_success_url user album
      /\ exists album_row row,
           In album_row (albums db) /\ a_name album_row = album
           /\ a_owner album_row = u_pk user
           /\ db' = Database (users db) (albums db) (photos db ++ [row])%list
           /\ ~ In (p_pk row) (map p_pk (photos db))
           /\ p_owner row = u_pk user
           /\ p_album row = a_pk album_row
           /\ p_upload row = p_upload photo
           /\ p_name row
              = if match form_name with
                   | Some n => Py.truthy n
                   | None => false
                   end
                then p_name photo else p_upload photo)
  /\ (forall db' e,
         UploadPhotoFormView.form_valid user album photo form_name db
         = (db', inl e) -> db' = db)
  /\ ((forall a, In a (albums db) -> a_name a = album ->
                 a_owner a <> u_pk user) ->
      UploadPhotoFormView.form_valid user album photo form_name db
      = (db, inl DoesNotExist)).
Proof.
  unfold UploadPhotoFormView.form_valid, bindM, query, insert_photo, pure.
  split; [| split].
  - intros db' target.
    destruct (get _ (albums db)) as [e | album_row] eqn:Hg; [discriminate |].
    apply get_inr, filter_one_In in Hg. destruct Hg as [Hin Hc].
    apply andb_true_iff in Hc. destruct Hc as [Hn Ho].
    apply String.eqb_eq in Hn. apply Z.eqb_eq in Ho.
    intro H. inversion H; subst db' target. clear H.
    split; [reflexivity |].
    eexists album_row, _. repeat split; auto.
    + cbn [p_pk]. apply next_pk_fresh.
    + cbn [p_name]. destruct form_name as [n |]; reflexivity.
  - intros db' e.
    destruct (get _ (albums db)) as [e' | album_row] eqn:Hg;
      intro H; inversion H; reflexivity.
  - intro Hnone. unfold get. rewrite filter_none; [reflexivity |].
    intros a Ha. destruct (String.eqb_spec (a_name a) album) as [E | _];
      [| reflexivity].
    simpl. apply Z.eqb_neq. exact (Hnone a Ha E).
Qed.

End WritePages.

Module TableInvariants.
Import Gallery GalleryFixtures GalleryFacts LinkPages HomePages PhotoPages.

Lemma map_snoc_NoDup {A : Type} (key : A -> Z) (rows : list A) (row : A) :
  NoDup (map key rows) -> ~ In (key row) (map key rows) ->
  NoDup (map key (rows ++ [row])).
Proof.
  intros Hnd Hk. rewrite map_app. now apply NoDup_snoc.
Qed.

(** Every view that writes keeps the keys of the album and of the photo
    table unique: the home page, the creation of an album, an upload and
    the photo page, whether they return or raise. *)
Theorem views_keep_keys_unique (db : database) :
  keys_unique db ->
  (forall user db' r,
      HomeTemplateView.get_context_data user db = (db', r) ->
      keys_unique db')
  /\ (forall user album db' r,
         CreateAlbumFormView.form_valid user album db = (db', r) ->
         keys_unique db')
  /\ (forall user album photo form_name db' r,
         UploadPhotoFormView.form_valid user album photo form_name db
         = (db', r) ->
         keys_unique db')
  /\ (forall user username pk db' r,
         PhotoTemplateView.get_context_data user username pk db = (db', r) ->
         keys_unique db').
Proof.
  intros [Ha Hp]. split; [| split; [| split]].
  - intros [u |] db' r; [| intro H; inversion H; subst; now split].
    unfold HomeTemplateView.get_context_data, bindM, query.
    destruct (get_or_create_album _ _ db) as [db1 res] eqn:Hg.
    assert (Hk : keys_unique db1).
    { unfold get_or_create_album in Hg.
      destruct (get _ (albums db)) as [[] | album];
        inversion Hg; subst; try (now split).
      split; [| exact Hp]. cbn [albums].
      apply map_snoc_NoDup; [exact Ha | apply next_pk_fresh]. }
    destruct res as [e | [home created]]; intro H; inversion H; now subst.
  - intros user album db' r.
    unfold CreateAlbumFormView.form_valid, bindM, insert_album, pure.
    intro H. inversion H; subst. split; [| exact Hp]. cbn [albums].
    apply map_snoc_NoDup; [exact Ha | apply next_pk_fresh].
  - intros user album photo form_name db' r.
    unfold UploadPhotoFormView.form_valid, bindM, query, insert_photo, pure.
    destruct (get _ (albums db)) as [e | album_row];
      intro H; inversion H; subst; [now split |].
    split; [exact Ha |]. cbn [photos].
    apply map_snoc_NoDup; [exact Hp | apply next_pk_fresh].
  - intros user username pk db' r H.
    destruct (photo_page_writes _ _ _ _ _ _ H) as [-> | [update [Hpk ->]]];
      [now split |].
    split; [exact Ha |]. cbn [photos]. rewrite map_map.
    now rewrite (map_ext _ p_pk Hpk).
Qed.

(** After the home page has been shown to a user, an upload by that user
    into the album named after the profile succeeds, stores one more
    photo and leads back to the home page. *)
Theorem home_then_upload (u : UserRow) (db db1 : database)
    (ctx : HomeTemplateView.context) (photo : PhotoRow)
    (form_name : option string) :
  HomeTemplateView.get_context_data (Some u) db = (db1, inr ctx) ->
  exists db2,
    UploadPhotoFormView.form_valid u (str (u_userprofile_id u)) photo
      form_name db1
    = (db2, inr (reverse_lazy "home" []))
    /\ users db2 = users db1 /\ albums db2 = albums db1
    /\ length (photos db2) = S (length (photos db1)).
Proof.
  unfold HomeTemplateView.get_context_data, bindM, query.
  destruct (get_or_create_album _ _ db) as [db' [e | [home created]]] eqn:Hg;
    [discriminate |].
  intro H. inversion H; subst db'. clear H.
  destruct (get_or_create_album_spec _ _ _ _ _ _ Hg)
    as (_ & _ & _ & _ & Hf & _).
  unfold UploadPhotoFormView.form_valid, bindM, query, insert_photo, pure.
  unfold get. rewrite Hf.
  unfold UploadPhotoFormView.get_success_url. rewrite String.eqb_refl.
  eexists. split; [reflexivity |]. cbn [users albums photos].
  repeat split. rewrite length_app. simpl. lia.
Qed.

(** When a user who owns no album of some name creates one, the album is
    stored under a new key with that user as its owner, and the page of
    the album is then answered for that user. *)
Theorem create_then_album_page (user : UserRow) (album : AlbumRow)
    (db : database) :
  (forall a, In a (albums db) -> a_name a = a_name album ->
             a_owner a <> u_pk user) ->
  exists db1 ctx,
    CreateAlbumFormView.form_valid user album db
    = (db1, inr (reverse_lazy "album:sub-album" [("album", a_name album)]))
    /\ users db1 = users db /\ photos db1 = photos db
    /\ snd (AlbumTemplateView.get_context_data user (a_name album) db1)
       = inr ctx
    /\ albums db1 = (albums db ++ [AlbumTemplateView.current_album ctx])%list
    /\ a_owner (AlbumTemplateView.current_album ctx) = u_pk user
    /\ ~ In (a_pk (AlbumTemplateView.current_album ctx))
            (map a_pk (albums db)).
Proof.
  intro Hnone.
  unfold CreateAlbumFormView.form_valid, bindM, insert_album, pure.
  cbn [a_name a_owner].
  do 2 eexists. split; [reflexivity |].
  cbn [users photos albums].
  split; [reflexivity | split; [reflexivity |]].
  unfold AlbumTemplateView.get_context_data, query. cbn [snd albums].
  unfold get_object_or_404, get. rewrite filter_app.
  rewrite filter_none.
  2:{ intros a Ha. destruct (String.eqb_spec (a_name a) (a_name album))
        as [E | _]; [| reflexivity].
      simpl. apply Z.eqb_neq. exact (Hnone a Ha E). }
  simpl. rewrite String.eqb_refl, Z.eqb_refl. simpl.
  split; [reflexivity |]. cbn [AlbumTemplateView.current_album].
  split; [reflexivity | split; [reflexivity |]].
  cbn [a_pk]. apply next_pk_fresh.
Qed.

End TableInvariants.

(** ** The theorems above at sample inputs *)

Module SearchFactsExamples.
Import Exn Json Albums Fixtures SearchFacts.

Lemma yaml_post_not_a_mapping_witness :
  YAMLSearchPhotosAPIView.post table (Yaml.Document (Yaml.YStr "cat"))
  = ([], inr (JsonResponse
                (JObj [("error",
                        JStr ("'" ++ Yaml.type_name (Yaml.PyStr "cat")
                              ++ "' object has no attribute 'get'"))])
                400%Z)).
Proof.
  apply (yaml_post_not_a_mapping table (Yaml.Document (Yaml.YStr "cat"))
           (Yaml.PyStr "cat")); [reflexivity | discriminate].
Defined.

Lemma search_finds_public_matches_witness :
  exists trace photos,
    XMLSearchPhotosAPIView.post table (xml_query "CAT")
    = (trace, inr (JsonResponse (JObj [("photos", JArr photos)]) 200%Z))
    /\ In (photo_dict cat) photos.
Proof.
  apply (search_finds_public_matches table "CAT" cat).
  - reflexivity.
  - vm_compute. lia.
  - left. reflexivity.
  - reflexivity.
  - reflexivity.
  - reflexivity.
Defined.

Lemma advanced_search_meets_criteria_witness :
  Py.icontains "sofa" (name cat) = true
  /\ (2000 - 24 * 3600 < uploaded_at cat)%Z.
Proof.
  destruct (advanced_search_meets_criteria 2000%Z last_day
              [name__icontains "sofa"; uploaded_at__gt (2000 - 24 * 3600)%Z;
               is_public_eq true]
              table cat) as (Hname & _ & Hperiod).
  - reflexivity.
  - vm_compute. left. reflexivity.
  - split.
    + apply (Hname "sofa"); reflexivity.
    + apply (Hperiod "hours" (2000 - 24 * 3600)%Z); reflexivity.
Defined.

End SearchFactsExamples.

Module LookupFactsExamples.
Import NameServer Fixtures LookupFacts.


End LookupFactsExamples.

Module GalleryExamples.
Import Gallery GalleryFixtures GalleryFacts PhotoPages LinkPages OwnerPages
       HomePages WritePages TableInvariants.

Lemma photo_page_privacy_witness :
  p_pk (viewed beach) = 1%Z
  /\ exists owner,
       In owner (users site)
       /\ u_username owner = "ann"
       /\ p_owner (viewed beach) = u_pk owner
       /\ (p_is_public (viewed beach) = false ->
           exists u, Some bob = Some u /\ u_pk u = u_pk owner).
Proof.
  apply (photo_page_privacy (Some bob) "ann" 1%Z site site_after_visit).
  reflexivity.
Defined.

Lemma photo_page_counts_one_view_witness :
  exists owner original,
    In owner (users site) /\ u_username owner = "ann"
    /\ In original (photos site) /\ p_pk original = 1%Z
    /\ if is_other (Some bob) owner then
         viewed beach = viewed original
         /\ site_after_visit
            = Database (users site) (albums site)
                (map (fun p => if (p_pk p =? 1)%Z then viewed p else p)
                     (photos site))
       else viewed beach = original /\ site_after_visit = site.
Proof.
  apply (photo_page_counts_one_view (Some bob) "ann" 1%Z site).
  - simpl. repeat (constructor; [simpl; lia |]). constructor.
  - reflexivity.
Defined.

Lemma photo_page_refusal_witness :
  site = site /\ (Http404 = Http404 \/ Http404 = MultipleObjectsReturned).
Proof.
  apply (photo_page_refusal (Some bob) "ann" 2%Z site site Http404).
  reflexivity.
Defined.

Lemma user_photos_visibility_witness :
  In ann (users site)
  /\ u_username ann = "ann"
  /\ forall p,
       In p [beach; garden]
       <-> In p (photos site) /\ p_owner p = u_pk ann
           /\ (is_other (Some bob) ann = true -> p_is_public p = true).
Proof.
  apply (proj1 (user_photos_visibility (Some bob) "ann" site)
           (UserPhotosTemplateView.Context [beach; garden] ann)).
  reflexivity.
Defined.

Lemma public_link_public_only_witness :
  (headers (MkFileResponse "beach-bytes"
              [("content-type", "text/plain");
               ("content-security-policy", "sandbox")])
   = [("content-type", "text/plain"); ("content-security-policy", "sandbox")]
   /\ exists photo,
        In photo (photos site) /\ p_pk photo = 1%Z
        /\ p_is_public photo = true
        /\ disk (p_upload_thumbnail_path photo) = Some "beach-bytes")
  /\ PublicPhotoLinkView.get disk 2%Z site = inl Http404.
Proof.
  split.
  - apply (proj1 (public_link_public_only disk 1%Z site)
             (MkFileResponse "beach-bytes"
                [("content-type", "text/plain");
                 ("content-security-policy", "sandbox")])).
    reflexivity.
  - apply (proj2 (public_link_public_only disk 2%Z site)).
    intros p [<- | [<- | [<- | []]]]; simpl; intro H;
      [discriminate H | reflexivity | discriminate H].
Defined.

Lemma photo_link_own_only_witness :
  (headers (MkFileResponse "passport-bytes" [("content-type", "text/plain")])
   = [("content-type", "text/plain")]
   /\ exists photo,
        In photo (photos site) /\ p_pk photo = 2%Z
        /\ p_owner photo = u_pk ann
        /\ disk (p_upload_thumbnail_path photo) = Some "passport-bytes")
  /\ PhotoLinkView.get disk bob 2%Z site = inl Http404.
Proof.
  split.
  - apply (proj1 (photo_link_own_only disk ann 2%Z site)
             (MkFileResponse "passport-bytes"
                [("content-type", "text/plain")])).
    reflexivity.
  - apply (proj2 (photo_link_own_only disk bob 2%Z site)).
    intros p [<- | [<- | [<- | []]]]; simpl; intros _; discriminate.
Defined.

Lemma album_page_own_album_witness :
  Sorted (descending p_uploaded_at) [passport; beach]
  /\ snd (AlbumTemplateView.get_context_data bob "trips" site) = inl Http404.
Proof.
  split.
  - destruct (proj1 (proj2 (album_page_own_album ann "trips" site))
                (AlbumTemplateView.Context ann_trips [passport; beach])
                eq_refl) as (_ & _ & _ & Hsorted & _).
    exact Hsorted.
  - apply (proj2 (proj2 (album_page_own_album bob "trips" site))).
    intros a [<- | [<- | []]]; simpl; intros _; discriminate.
Defined.

Lemma home_page_contents_witness :
  exists home,
    Some bob_home = Some home
    /\ In home (albums site_with_bob_home)
    /\ a_name home = str (u_userprofile_id bob)
    /\ a_owner home = u_pk bob
    /\ users site_with_bob_home = users site
    /\ photos site_with_bob_home = photos site
    /\ (albums site_with_bob_home = albums site
        \/ (albums site_with_bob_home = (albums site ++ [home])%list
            /\ ~ In (a_pk home) (map a_pk (albums site))))
    /\ (forall a,
           In a []
           <-> In a (albums site_with_bob_home) /\ a_owner a = u_pk bob
               /\ a_name a <> a_name home)
    /\ Sorted (descending p_uploaded_at) []
    /\ (forall p,
           In p []
           <-> In p (photos site) /\ p_owner p = u_pk bob
               /\ p_album p = a_pk home).
Proof.
  apply (proj2 (home_page_contents site) bob site_with_bob_home
           (HomeTemplateView.Context (Some bob_home) [] [])).
  reflexivity.
Defined.

Lemma home_page_idempotent_witness :
  HomeTemplateView.get_context_data (Some bob) site_with_bob_home
  = (site_with_bob_home,
     inr (HomeTemplateView.Context (Some bob_home) [] [])).
Proof.
  apply (home_page_idempotent bob site). reflexivity.
Defined.

Lemma upload_into_own_album_witness :
  reverse_lazy "album:sub-album" [("album", "trips")]
  = UploadPhotoFormView.get_success_url ann "trips"
  /\ UploadPhotoFormView.form_valid bob "trips" draft None site
     = (site, inl DoesNotExist).
Proof.
  split.
  - destruct (proj1 (upload_into_own_album ann "trips" draft None site)
                site_with_hills
                (reverse_lazy "album:sub-album" [("album", "trips")])
                eq_refl) as [Htarget _].
    exact Htarget.
  - apply (proj2 (proj2 (upload_into_own_album bob "trips" draft None
                           site))).
    intros a [<- | [<- | []]]; simpl; intros _; discriminate.
Defined.

Lemma views_keep_keys_unique_witness :
  keys_unique site_after_visit.
Proof.
  assert (Hk : keys_unique site).
  { split; simpl; repeat (constructor; [simpl; lia |]); constructor. }
  apply (proj2 (proj2 (proj2 (views_keep_keys_unique site Hk)))
           (Some bob) "ann" 1%Z site_after_visit (inr (viewed beach))).
  reflexivity.
Defined.

Lemma home_then_upload_witness :
  exists db2,
    UploadPhotoFormView.form_valid bob (str (u_userprofile_id bob)) draft
      (Some "hills") site_with_bob_home
    = (db2, inr (reverse_lazy "home" []))
    /\ users db2 = users site_with_bob_home
    /\ albums db2 = albums site_with_bob_home
    /\ length (photos db2) = S (length (photos site_with_bob_home)).
Proof.
  apply (home_then_upload bob site site_with_bob_home
           (HomeTemplateView.Context (Some bob_home) [] [])
           draft (Some "hills")).
  reflexivity.
Defined.

Lemma create_then_album_page_witness :
  exists db1 ctx,
    CreateAlbumFormView.form_valid bob (MkAlbumRow 0 "trips" 0) site
    = (db1, inr (reverse_lazy "album:sub-album" [("album", "trips")]))
    /\ users db1 = users site /\ photos db1 = photos site
    /\ snd (AlbumTemplateView.get_context_data bob "trips" db1) = inr ctx
    /\ albums db1
       = (albums site ++ [AlbumTemplateView.current_album ctx])%list
    /\ a_owner (AlbumTemplateView.current_album ctx) = u_pk bob
    /\ ~ In (a_pk (AlbumTemplateView.current_album ctx))
            (map a_pk (albums site)).
Proof.
  apply (create_then_album_page bob (MkAlbumRow 0 "trips" 0) site).
  intros a [<- | [<- | []]]; simpl; intros _; discriminate.
Defined.

End GalleryExamples.

Module PlainSearchFacts.
Import Albums SearchFacts.

(** The plain search builds a query exactly when the parameter [q] is
    present and one of its characters is not white space; the search
    form then shows the term again. *)
Theorem plain_search_runs_iff_visible (req : request) :
  (photos (snd (SearchPhotosFormView.get_context_data req)) <> NoPhotos
   <-> exists q,
         Py.get "q" (GET req) = Some q
         /\ Py.any_char (fun c => negb (Py.is_space_char c)) q = true)
  /\ (forall q,
         Py.get "q" (GET req) = Some q ->
         Py.any_char (fun c => negb (Py.is_space_char c)) q = true ->
         form_initial (snd (SearchPhotosFormView.get_context_data req))
         = [("q", Some q)]).
Proof.
  unfold SearchPhotosFormView.get_context_data.
  destruct (Py.get "q" (GET req)) as [q |].
  - rewrite (searchable_iff_visible_char q).
    destruct (Py.any_char _ q) eqn:Hv.
    + split.
      * split; [intros _; now exists q
               | intros _; destruct (user req); discriminate].
      * intros q' E _. inversion E; subst q'. now destruct (user req).
    + split.
      * split.
        -- intro H. exfalso. apply H. now destruct (user req).
        -- intros [q' [E Hv']]. inversion E; subst q'. congruence.
      * intros q' E Hv'. inversion E; subst q'. congruence.
  - split.
    + split.
      * intro H. exfalso. apply H. now destruct (user req).
      * intros [q' [E _]]. discriminate E.
    + intros q' E. discriminate E.
Qed.

End PlainSearchFacts.

Module PlainSearchExamples.
Import Albums Fixtures PlainSearchFacts.

Lemma plain_search_runs_iff_visible_witness :
  form_initial (snd (SearchPhotosFormView.get_context_data (get_q " cat ")))
  = [("q", Some " cat ")].
Proof.
  apply (proj2 (plain_search_runs_iff_visible (get_q " cat ")) " cat ");
    reflexivity.
Defined.

End PlainSearchExamples.
